(** * TimerOne: interrupt and PWM driver for the 16-bit Timer1 of the
    ATmega168/328, embedded from [src/TimerOne/TimerOne.cpp].

    The driver object and the memory-mapped registers it touches are one
    record that every member function transforms.  Integers are [Z] with the
    AVR widths written out: [long] is 32-bit two's complement, [unsigned
    long] is 32 bits, [unsigned int] and the timer's wide registers are 16
    bits, the control registers are bytes. *)

From Stdlib Require Import ZArith List Bool Lia.
Import ListNotations.
Local Open Scope Z_scope.

(** ** Machine integers of avr-gcc *)

Definition LONG_MAX : Z := 2 ^ 31 - 1.
Definition LONG_MIN : Z := - 2 ^ 31.

(** Value of a [long] expression whose mathematical result is [z]: the low 32
    bits, read as two's complement (what the AVR multiply/shift sequences
    leave in the register when the result does not fit). *)
Definition to_long (z : Z) : Z := (z + 2 ^ 31) mod 2 ^ 32 - 2 ^ 31.

(** Conversion to [unsigned long] and to [unsigned int]. *)
Definition to_ulong (z : Z) : Z := z mod 2 ^ 32.
Definition to_uint (z : Z) : Z := z mod 2 ^ 16.

(** ** Bit names of <avr/io.h> for the ATmega168/328 *)

Definition _BV (bit : Z) : Z := Z.shiftl 1 bit.

Definition CS10 : Z := 0.
Definition CS11 : Z := 1.
Definition CS12 : Z := 2.
Definition WGM13 : Z := 4.
Definition COM1A1 : Z := 7.
Definition COM1B1 : Z := 5.
Definition TOIE1 : Z := 0.
Definition PORTB1 : Z := 1.
Definition PORTB2 : Z := 2.
Definition PSRSYNC : Z := 0.
(** Global interrupt enable flag of the status register. *)
Definition SREG_I : Z := 7.

(** ** Driver and register state *)

(** The timer's 16-bit registers: each is two bytes behind a shared
    temporary, which is why their accesses are meant to be uninterrupted. *)
Inductive reg16 : Set := rTCNT1 | rICR1 | rOCR1A | rOCR1B.

(** One access to a 16-bit register, with whether interrupts were masked
    (I flag of SREG clear) while it happened. *)
Inductive access : Set :=
| Rd16 (r : reg16) (masked : bool)
| Wr16 (r : reg16) (v : Z) (masked : bool).

(** The user's interrupt routine is an opaque code address. *)
Definition isr_t : Set := Z.

Record state : Set := mkState {
  (* 8-bit I/O registers *)
  TCCR1A : Z;
  TCCR1B : Z;
  TIMSK1 : Z;
  GTCCR : Z;
  DDRB : Z;
  SREG : Z;
  (* 16-bit timer registers that hold what software wrote *)
  ICR1 : Z;
  OCR1A : Z;
  OCR1B : Z;
  (* TCNT1 is driven by the hardware: the values its next reads deliver *)
  tcnt1_in : list Z;
  (* members of class TimerOne; TimerOne.h declares them: pwmPeriod is 16
     bits wide like the ICR1 it mirrors, clockSelectBits and oldSREG are
     bytes *)
  pwmPeriod : Z;
  clockSelectBits : Z;
  oldSREG : Z;
  isrCallback : option isr_t;
  (* every 16-bit register access so far, oldest first *)
  accesses : list access
}.

Definition set_TCCR1A (v : Z) (s : state) : state :=
  mkState v (TCCR1B s) (TIMSK1 s) (GTCCR s) (DDRB s) (SREG s) (ICR1 s)
    (OCR1A s) (OCR1B s) (tcnt1_in s) (pwmPeriod s) (clockSelectBits s)
    (oldSREG s) (isrCallback s) (accesses s).

Definition set_TCCR1B (v : Z) (s : state) : state :=
  mkState (TCCR1A s) v (TIMSK1 s) (GTCCR s) (DDRB s) (SREG s) (ICR1 s)
    (OCR1A s) (OCR1B s) (tcnt1_in s) (pwmPeriod s) (clockSelectBits s)
    (oldSREG s) (isrCallback s) (accesses s).

Definition set_TIMSK1 (v : Z) (s : state) : state :=
  mkState (TCCR1A s) (TCCR1B s) v (GTCCR s) (DDRB s) (SREG s) (ICR1 s)
    (OCR1A s) (OCR1B s) (tcnt1_in s) (pwmPeriod s) (clockSelectBits s)
    (oldSREG s) (isrCallback s) (accesses s).

Definition set_GTCCR (v : Z) (s : state) : state :=
  mkState (TCCR1A s) (TCCR1B s) (TIMSK1 s) v (DDRB s) (SREG s) (ICR1 s)
    (OCR1A s) (OCR1B s) (tcnt1_in s) (pwmPeriod s) (clockSelectBits s)
    (oldSREG s) (isrCallback s) (accesses s).

Definition set_DDRB (v : Z) (s : state) : state :=
  mkState (TCCR1A s) (TCCR1B s) (TIMSK1 s) (GTCCR s) v (SREG s) (ICR1 s)
    (OCR1A s) (OCR1B s) (tcnt1_in s) (pwmPeriod s) (clockSelectBits s)
    (oldSREG s) (isrCallback s) (accesses s).

Definition set_SREG (v : Z) (s : state) : state :=
  mkState (TCCR1A s) (TCCR1B s) (TIMSK1 s) (GTCCR s) (DDRB s) v (ICR1 s)
    (OCR1A s) (OCR1B s) (tcnt1_in s) (pwmPeriod s) (clockSelectBits s)
    (oldSREG s) (isrCallback s) (accesses s).

Definition set_ICR1 (v : Z) (s : state) : state :=
  mkState (TCCR1A s) (TCCR1B s) (TIMSK1 s) (GTCCR s) (DDRB s) (SREG s) v
    (OCR1A s) (OCR1B s) (tcnt1_in s) (pwmPeriod s) (clockSelectBits s)
    (oldSREG s) (isrCallback s) (accesses s).

Definition set_OCR1A (v : Z) (s : state) : state :=
  mkState (TCCR1A s) (TCCR1B s) (TIMSK1 s) (GTCCR s) (DDRB s) (SREG s)
    (ICR1 s) v (OCR1B s) (tcnt1_in s) (pwmPeriod s) (clockSelectBits s)
    (oldSREG s) (isrCallback s) (accesses s).

Definition set_OCR1B (v : Z) (s : state) : state :=
  mkState (TCCR1A s) (TCCR1B s) (TIMSK1 s) (GTCCR s) (DDRB s) (SREG s)
    (ICR1 s) (OCR1A s) v (tcnt1_in s) (pwmPeriod s) (clockSelectBits s)
    (oldSREG s) (isrCallback s) (accesses s).

Definition set_tcnt1_in (v : list Z) (s : state) : state :=
  mkState (TCCR1A s) (TCCR1B s) (TIMSK1 s) (GTCCR s) (DDRB s) (SREG s)
    (ICR1 s) (OCR1A s) (OCR1B s) v (pwmPeriod s) (clockSelectBits s)
    (oldSREG s) (isrCallback s) (accesses s).

Definition set_pwmPeriod (v : Z) (s : state) : state :=
  mkState (TCCR1A s) (TCCR1B s) (TIMSK1 s) (GTCCR s) (DDRB s) (SREG s)
    (ICR1 s) (OCR1A s) (OCR1B s) (tcnt1_in s) v (clockSelectBits s)
    (oldSREG s) (isrCallback s) (accesses s).

Definition set_clockSelectBits (v : Z) (s : state) : state :=
  mkState (TCCR1A s) (TCCR1B s) (TIMSK1 s) (GTCCR s) (DDRB s) (SREG s)
    (ICR1 s) (OCR1A s) (OCR1B s) (tcnt1_in s) (pwmPeriod s) v
    (oldSREG s) (isrCallback s) (accesses s).

Definition set_oldSREG (v : Z) (s : state) : state :=
  mkState (TCCR1A s) (TCCR1B s) (TIMSK1 s) (GTCCR s) (DDRB s) (SREG s)
    (ICR1 s) (OCR1A s) (OCR1B s) (tcnt1_in s) (pwmPeriod s)
    (clockSelectBits s) v (isrCallback s) (accesses s).

Definition set_isrCallback (v : option isr_t) (s : state) : state :=
  mkState (TCCR1A s) (TCCR1B s) (TIMSK1 s) (GTCCR s) (DDRB s) (SREG s)
    (ICR1 s) (OCR1A s) (OCR1B s) (tcnt1_in s) (pwmPeriod s)
    (clockSelectBits s) (oldSREG s) v (accesses s).

Definition log_access (a : access) (s : state) : state :=
  mkState (TCCR1A s) (TCCR1B s) (TIMSK1 s) (GTCCR s) (DDRB s) (SREG s)
    (ICR1 s) (OCR1A s) (OCR1B s) (tcnt1_in s) (pwmPeriod s)
    (clockSelectBits s) (oldSREG s) (isrCallback s) (accesses s ++ [a]).

(** ** Interrupt masking and 16-bit register access *)

(** Interrupts are masked when the I flag of SREG is clear. *)
Definition masked (s : state) : bool := negb (Z.testbit (SREG s) SREG_I).

(** [cli()] clears the I flag and nothing else. *)
Definition cli (s : state) : state := set_SREG (Z.clearbit (SREG s) SREG_I) s.

(** [oldSREG = SREG;] and [SREG = oldSREG;].  [oldSREG] keeps the byte it was
    given, so the pair is a plain save and restore. *)
Definition save_SREG (s : state) : state := set_oldSREG (SREG s) s.
Definition restore_SREG (s : state) : state := set_SREG (oldSREG s) s.

(** Stores to the wide registers keep the low 16 bits. *)
Definition write_ICR1 (v : Z) (s : state) : state :=
  log_access (Wr16 rICR1 (to_uint v) (masked s)) (set_ICR1 (to_uint v) s).

Definition write_OCR1A (v : Z) (s : state) : state :=
  log_access (Wr16 rOCR1A (to_uint v) (masked s)) (set_OCR1A (to_uint v) s).

Definition write_OCR1B (v : Z) (s : state) : state :=
  log_access (Wr16 rOCR1B (to_uint v) (masked s)) (set_OCR1B (to_uint v) s).

(** A store to the counter: the hardware counts on from there, and what it
    shows afterwards is whatever [tcnt1_in] says. *)
Definition write_TCNT1 (v : Z) (s : state) : state :=
  log_access (Wr16 rTCNT1 (to_uint v) (masked s)) s.

Definition read_ICR1 (s : state) : Z * state :=
  (ICR1 s, log_access (Rd16 rICR1 (masked s)) s).

(** A load of the counter takes the next value the hardware delivers; [None]
    when the recorded run of the hardware has no further value. *)
Definition read_TCNT1 (s : state) : option (Z * state) :=
  match tcnt1_in s with
  | [] => None
  | v :: rest =>
      Some (to_uint v, log_access (Rd16 rTCNT1 (masked s)) (set_tcnt1_in rest s))
  end.

(** ** Run state *)

Definition CS_MASK : Z := Z.lor (Z.lor (_BV CS10) (_BV CS11)) (_BV CS12).

(** The counter advances exactly when some clock-select bit of TCCR1B is
    set ([stop()] clears all three). *)
Definition is_stopped (s : state) : bool := Z.land (TCCR1B s) CS_MASK =? 0.
Definition is_running (s : state) : bool := negb (is_stopped s).

(** [TimerOne::resume] *)
Definition resume (s : state) : state :=
  set_TCCR1B (Z.lor (TCCR1B s) (clockSelectBits s)) s.

(** [TimerOne::stop] *)
Definition stop (s : state) : state :=
  set_TCCR1B (Z.land (TCCR1B s) (Z.lnot CS_MASK)) s.

(** [TimerOne::detachInterrupt] *)
Definition detachInterrupt (s : state) : state :=
  set_TIMSK1 (Z.land (TIMSK1 s) (Z.lnot (_BV TOIE1))) s.

(** ** Duty and channels *)

(** [TimerOne::setPwmDuty(char pin, int duty)] *)
Definition setPwmDuty (pin duty : Z) (s : state) : state :=
  let dutyCycle := to_ulong (pwmPeriod s) in
  let dutyCycle := to_ulong (dutyCycle * to_ulong duty) in
  let dutyCycle := Z.shiftr dutyCycle 10 in
  let s := save_SREG s in
  let s := cli s in
  let s :=
    if (pin =? 1) || (pin =? 9) then write_OCR1A dutyCycle s
    else if (pin =? 2) || (pin =? 10) then write_OCR1B dutyCycle s
    else s in
  restore_SREG s.

(** [TimerOne::disablePwm(char pin)] *)
Definition disablePwm (pin : Z) (s : state) : state :=
  if (pin =? 1) || (pin =? 9) then
    set_TCCR1A (Z.land (TCCR1A s) (Z.lnot (_BV COM1A1))) s
  else if (pin =? 2) || (pin =? 10) then
    set_TCCR1A (Z.land (TCCR1A s) (Z.lnot (_BV COM1B1))) s
  else s.

(** ** The busy-wait on the counter *)

(** The loop shared by [start()] and [read()]:
    [do { oldSREG = SREG; cli(); tcnt1 = TCNT1; SREG = oldSREG; }
     while (tcnt1 == tmp);]
    Every turn consumes one hardware sample; [fuel] bounds the turns. *)
Fixpoint wait_change (fuel : nat) (tmp : Z) (s : state) : option (Z * state) :=
  match fuel with
  | O => None
  | S fuel' =>
      let s := save_SREG s in
      let s := cli s in
      match read_TCNT1 s with
      | None => None
      | Some (tcnt1, s) =>
          let s := restore_SREG s in
          if tcnt1 =? tmp then wait_change fuel' tmp s else Some (tcnt1, s)
      end
  end.

(** [TimerOne::start]; [None] when the counter never leaves zero within the
    recorded samples. *)
Definition start (s : state) : option state :=
  let s := set_TIMSK1 (Z.land (TIMSK1 s) (Z.lnot (_BV TOIE1))) s in
  let s := set_GTCCR (Z.lor (GTCCR s) (_BV PSRSYNC)) s in
  let s := save_SREG s in
  let s := cli s in
  let s := write_TCNT1 0 s in
  let s := restore_SREG s in
  let s := resume s in
  match wait_change (S (length (tcnt1_in s))) 0 s with
  | None => None
  | Some (_, s) => Some s
  end.

(** [TimerOne::restart] *)
Definition restart (s : state) : option state := start s.

(** ** Prescale encodings *)

(** The [switch (clockSelectBits)] of [read()]: the shift of the matching
    case, [None] when no case matches (and [scale] keeps its initial 0). *)
Definition scale_switch (bits : Z) : option Z :=
  if bits =? 1 then Some 0
  else if bits =? 2 then Some 3
  else if bits =? 3 then Some 6
  else if bits =? 4 then Some 8
  else if bits =? 5 then Some 10
  else None.

(** The prescale divider a clock-select pattern stands for (the table of the
    ATmega328 data sheet that the comments of [setPeriod] repeat); 0 for a
    pattern that does not clock the counter from the prescaler. *)
Definition divider_of_bits (bits : Z) : Z :=
  if bits =? 1 then 1
  else if bits =? 2 then 8
  else if bits =? 3 then 64
  else if bits =? 4 then 256
  else if bits =? 5 then 1024
  else 0.

Definition dividers : list Z := [1; 8; 64; 256; 1024].

Section Clocked.

(** [F_CPU] comes from the build and [RESOLUTION] from TimerOne.h; neither is
    fixed by the file embedded here. *)
Variable F_CPU : Z.
Variable RESOLUTION : Z.

(** The [if]/[else if] chain of [setPeriod]: the final value of [cycles] and
    the clock-select pattern.  [>>=] on a [long] is an arithmetic shift. *)
Definition select_prescale (cycles : Z) : Z * Z :=
  if cycles <? RESOLUTION then (cycles, _BV CS10)
  else
    let cycles := Z.shiftr cycles 3 in
    if cycles <? RESOLUTION then (cycles, _BV CS11)
    else
      let cycles := Z.shiftr cycles 3 in
      if cycles <? RESOLUTION then (cycles, Z.lor (_BV CS11) (_BV CS10))
      else
        let cycles := Z.shiftr cycles 2 in
        if cycles <? RESOLUTION then (cycles, _BV CS12)
        else
          let cycles := Z.shiftr cycles 2 in
          if cycles <? RESOLUTION then (cycles, Z.lor (_BV CS12) (_BV CS10))
          else (RESOLUTION - 1, Z.lor (_BV CS12) (_BV CS10)).

(** [TimerOne::setPeriod(long microseconds)] *)
Definition setPeriod (microseconds : Z) (s : state) : state :=
  let cycles := to_long (Z.quot F_CPU 2000000 * microseconds) in
  let '(cycles, bits) := select_prescale cycles in
  let s := set_clockSelectBits bits s in
  let s := save_SREG s in
  let s := cli s in
  (* ICR1 = pwmPeriod = cycles; *)
  let s := set_pwmPeriod (to_uint cycles) s in
  let s := write_ICR1 (pwmPeriod s) s in
  let s := restore_SREG s in
  let s := set_TCCR1B (Z.land (TCCR1B s) (Z.lnot CS_MASK)) s in
  set_TCCR1B (Z.lor (TCCR1B s) (clockSelectBits s)) s.

(** [TimerOne::initialize(long microseconds)] *)
Definition initialize (microseconds : Z) (s : state) : state :=
  let s := set_TCCR1A 0 s in
  let s := set_TCCR1B (_BV WGM13) s in
  setPeriod microseconds s.

(** [TimerOne::pwm(char pin, int duty, long microseconds)] *)
Definition pwm (pin duty microseconds : Z) (s : state) : state :=
  let s := if 0 <? microseconds then setPeriod microseconds s else s in
  let s :=
    if (pin =? 1) || (pin =? 9) then
      let s := set_DDRB (Z.lor (DDRB s) (_BV PORTB1)) s in
      set_TCCR1A (Z.lor (TCCR1A s) (_BV COM1A1)) s
    else if (pin =? 2) || (pin =? 10) then
      let s := set_DDRB (Z.lor (DDRB s) (_BV PORTB2)) s in
      set_TCCR1A (Z.lor (TCCR1A s) (_BV COM1B1)) s
    else s in
  let s := setPwmDuty pin duty s in
  resume s.

(** [TimerOne::attachInterrupt(isr, long microseconds)], [isr] a pointer to a
    function without arguments or result *)
Definition attachInterrupt (isr : isr_t) (microseconds : Z) (s : state)
  : state :=
  let s := if 0 <? microseconds then setPeriod microseconds s else s in
  let s := set_isrCallback (Some isr) s in
  let s := set_TIMSK1 (_BV TOIE1) s in
  resume s.

(** [TimerOne::read]: the microseconds it returns and the state it leaves;
    [None] when the counter never changes within the recorded samples. *)
Definition read (s : state) : option (Z * state) :=
  let s := save_SREG s in
  let s := cli s in
  match read_TCNT1 s with
  | None => None
  | Some (tmp, s) =>
      let s := restore_SREG s in
      let scale :=
        match scale_switch (clockSelectBits s) with
        | Some sc => sc
        | None => 0
        end in
      match wait_change (S (length (tcnt1_in s))) tmp s with
      | None => None
      | Some (tcnt1, s) =>
          let '(tmp, s) :=
            if tmp <? tcnt1 then (tmp, s)
            else
              let '(top1, s) := read_ICR1 s in
              let '(top2, s) := read_ICR1 s in
              (to_ulong (to_uint (top1 - tcnt1) + top2), s) in
          Some (to_ulong
                  (Z.shiftl
                     (to_ulong (tmp * 1000) / to_ulong (Z.quot F_CPU 1000))
                     scale),
                s)
      end
  end.

(** ** The driver's interface as a transition system *)

Inductive op : Set :=
| OpInitialize (microseconds : Z)
| OpSetPeriod (microseconds : Z)
| OpSetPwmDuty (pin duty : Z)
| OpPwm (pin duty microseconds : Z)
| OpDisablePwm (pin : Z)
| OpAttachInterrupt (isr : isr_t) (microseconds : Z)
| OpDetachInterrupt
| OpResume
| OpRestart
| OpStart
| OpStop
| OpRead.

Definition run_op (o : op) (s : state) : option state :=
  match o with
  | OpInitialize us => Some (initialize us s)
  | OpSetPeriod us => Some (setPeriod us s)
  | OpSetPwmDuty pin duty => Some (setPwmDuty pin duty s)
  | OpPwm pin duty us => Some (pwm pin duty us s)
  | OpDisablePwm pin => Some (disablePwm pin s)
  | OpAttachInterrupt isr us => Some (attachInterrupt isr us s)
  | OpDetachInterrupt => Some (detachInterrupt s)
  | OpResume => Some (resume s)
  | OpRestart => restart s
  | OpStart => start s
  | OpStop => Some (stop s)
  | OpRead => option_map snd (read s)
  end.


(** ** What the specification says, in the terms of the code *)

(** The cycle count the requested period stands for, as a number. *)
Definition cycles_of (microseconds : Z) : Z :=
  F_CPU / 2000000 * microseconds.

(** A period is representable when the slowest divider brings its cycle
    count under [RESOLUTION]. *)
Definition representable (microseconds : Z) : Prop :=
  0 <= microseconds /\ cycles_of microseconds / 1024 < RESOLUTION.

(** The contract of the prescale selector as the specification words it:
    the divider in force is the smallest of the sequence that brings the cycle
    count under [RESOLUTION], and the counter-top is the cycle count divided
    by it. *)
Definition prescale_spec (microseconds : Z) (s' : state) : Prop :=
  let cycles := cycles_of microseconds in
  let d := divider_of_bits (clockSelectBits s') in
  In d dividers /\
  cycles / d < RESOLUTION /\
  (forall d', In d' dividers -> cycles / d' < RESOLUTION -> d <= d') /\
  pwmPeriod s' = cycles / d /\
  ICR1 s' = cycles / d.





End Clocked.

(** Registers after reset, with no counter samples recorded. *)
Definition reset_state : state :=
  mkState 0 0 0 0 0 0 0 0 0 [] 0 0 0 None [].

(** The state a completed busy-wait leaves: [n] masked loads of the counter
    are on record, the samples up to the one that ended the wait are used up,
    [oldSREG] holds the status byte, and everything else is as before. *)
Definition polled (n : nat) (rest : list Z) (s : state) : state :=
  mkState (TCCR1A s) (TCCR1B s) (TIMSK1 s) (GTCCR s) (DDRB s) (SREG s)
    (ICR1 s) (OCR1A s) (OCR1B s) rest (pwmPeriod s) (clockSelectBits s)
    (SREG s) (isrCallback s) (accesses s ++ repeat (Rd16 rTCNT1 true) n).

(** Whether every access on record was made with interrupts masked. *)
Definition access_masked (a : access) : bool :=
  match a with
  | Rd16 _ m => m
  | Wr16 _ _ m => m
  end.

Definition all_masked (l : list access) : bool := forallb access_masked l.

(** From [s] to [s'] the status register is back to what it was and every
    16-bit access added to the record was made with interrupts masked. *)
Definition guarded (s s' : state) : Prop :=
  SREG s' = SREG s /\
  exists l, accesses s' = accesses s ++ l /\ all_masked l = true.

(** The two PWM channels and the identifiers that select them. *)
Inductive channel : Set := ChannelA | ChannelB.

Definition channel_of_pin (pin : Z) : option channel :=
  if (pin =? 1) || (pin =? 9) then Some ChannelA
  else if (pin =? 2) || (pin =? 10) then Some ChannelB
  else None.

Definition duty_of (c : channel) (s : state) : Z :=
  match c with ChannelA => OCR1A s | ChannelB => OCR1B s end.

Definition other (c : channel) : channel :=
  match c with ChannelA => ChannelB | ChannelB => ChannelA end.

Definition duty_reg (c : channel) : reg16 :=
  match c with ChannelA => rOCR1A | ChannelB => rOCR1B end.

(** The conversion at the end of [read()], on a tick count and the
    clock-select pattern in force: microseconds at the undivided clock,
    shifted left by the log2 of the divider, in an [unsigned long]. *)
Definition microseconds_of_ticks (F_CPU ticks bits : Z) : Z :=
  to_ulong (Z.shiftl (ticks * 1000 / (F_CPU / 1000))
              (Z.log2 (divider_of_bits bits))).

(** The down-count tick count in the specification's words: first sample,
    plus top minus second sample, plus top. *)
Definition spec_down_ticks (firstSample secondSample counterTop : Z) : Z :=
  firstSample + (counterTop - secondSample) + counterTop.

(** A timer programmed for a top of 1000 at full clock, interrupts enabled,
    seen counting down from 500 to 499. *)
Definition down_count_example : state :=
  mkState 0 17 0 0 0 128 1000 0 0 [500; 499] 1000 1 0 None [].


(** The clock-select field of TCCR1B. *)
Definition clock_field (s : state) : Z := Z.land (TCCR1B s) CS_MASK.

(** The output-compare enable bit of TCCR1A and the direction bit of DDRB
    that [pwm] and [disablePwm] use for each channel. *)
Definition com_bit (c : channel) : Z :=
  match c with ChannelA => COM1A1 | ChannelB => COM1B1 end.

Definition port_bit (c : channel) : Z :=
  match c with ChannelA => PORTB1 | ChannelB => PORTB2 end.


(** Whether an access is a store to the counter. *)
Definition writes_counter (a : access) : bool :=
  match a with
  | Wr16 rTCNT1 _ _ => true
  | _ => false
  end.

(** The state in which [start()] enters its busy-wait: overflow interrupt
    disabled, prescaler reset requested, counter zeroed inside a critical
    section, clock-select pattern ORed in. *)
Definition armed (s : state) : state :=
  let s := set_TIMSK1 (Z.land (TIMSK1 s) (Z.lnot (_BV TOIE1))) s in
  let s := set_GTCCR (Z.lor (GTCCR s) (_BV PSRSYNC)) s in
  let s := save_SREG s in
  let s := cli s in
  let s := write_TCNT1 0 s in
  let s := restore_SREG s in
  resume s.

(** The two unguarded loads of ICR1 at the end of a down-count [read()]. *)
Definition top_loaded (s : state) : state :=
  log_access (Rd16 rICR1 (masked s)) (log_access (Rd16 rICR1 (masked s)) s).

(** The same timer seen counting up from 499 to 500. *)
Definition up_count_example : state :=
  mkState 0 17 0 0 0 128 1000 0 0 [499; 500] 1000 1 0 None [].

(** The timer of [down_count_example] after its top was lowered to 1000 while
    the counter was already above it: seen counting down from 2000 to 1999. *)
Definition lowered_top_example : state :=
  mkState 0 17 0 0 0 128 1000 0 0 [2000; 1999] 1000 1 0 None [].

(** * Properties *)

(** ** Machine arithmetic *)

Lemma to_long_id (z : Z) : LONG_MIN <= z <= LONG_MAX -> to_long z = z.
Proof.
  unfold to_long, LONG_MIN, LONG_MAX. intros H.
  rewrite Z.mod_small; lia.
Qed.

Lemma to_uint_id (z : Z) : 0 <= z < 65536 -> to_uint z = z.
Proof. unfold to_uint. intros H. apply Z.mod_small. lia. Qed.

Lemma to_uint_range (z : Z) : 0 <= to_uint z < 65536.
Proof. unfold to_uint. apply Z.mod_pos_bound. lia. Qed.

Lemma to_ulong_id (z : Z) : 0 <= z < 2 ^ 32 -> to_ulong z = z.
Proof. unfold to_ulong. intros H. apply Z.mod_small. lia. Qed.

(** Clearing the clock-select field and OR-ing a pattern in leaves exactly
    that pattern in the field. *)
Lemma clock_select_field (r bits : Z) :
  0 <= bits <= 7 ->
  Z.land (Z.lor (Z.land r (Z.lnot CS_MASK)) bits) CS_MASK = bits.
Proof.
  intros H. change CS_MASK with 7.
  rewrite Z.land_lor_distr_l, <- Z.land_assoc.
  replace (Z.land (Z.lnot 7) 7) with 0 by reflexivity.
  rewrite Z.land_0_r, Z.lor_0_l.
  change 7 with (Z.ones 3). rewrite Z.land_ones by lia.
  apply Z.mod_small. change (2 ^ 3) with 8. lia.
Qed.

(** ** The prescale chain *)

Section PrescaleFacts.

Variable RESOLUTION : Z.

Ltac chain :=
  unfold select_prescale;
  change (Z.lor (_BV CS11) (_BV CS10)) with 3;
  change (Z.lor (_BV CS12) (_BV CS10)) with 5;
  change (_BV CS10) with 1; change (_BV CS11) with 2;
  change (_BV CS12) with 4;
  rewrite ?Z.shiftr_div_pow2 by lia;
  change (2 ^ 3) with 8; change (2 ^ 2) with 4;
  repeat match goal with
         | |- context [?a <? ?b] => destruct (Z.ltb_spec a b)
         end;
  cbn [fst snd].

Lemma select_prescale_bits (cycles : Z) :
  In (snd (select_prescale RESOLUTION cycles)) [1; 2; 3; 4; 5].
Proof. chain; cbn; tauto. Qed.

Lemma select_prescale_saturated (cycles : Z) :
  0 <= RESOLUTION ->
  RESOLUTION <= cycles / 1024 ->
  select_prescale RESOLUTION cycles = (RESOLUTION - 1, 5).
Proof.
  intros HR H. chain; try reflexivity;
    exfalso; Z.to_euclidean_division_equations; lia.
Qed.

Lemma select_prescale_monotone (c1 c2 : Z) :
  c1 <= c2 ->
  divider_of_bits (snd (select_prescale RESOLUTION c1))
  <= divider_of_bits (snd (select_prescale RESOLUTION c2)).
Proof.
  intros H. chain; cbn; try lia;
    exfalso; Z.to_euclidean_division_equations; lia.
Qed.

Lemma select_prescale_smallest (cycles : Z) :
  0 <= cycles -> cycles / 1024 < RESOLUTION ->
  let top := fst (select_prescale RESOLUTION cycles) in
  let d := divider_of_bits (snd (select_prescale RESOLUTION cycles)) in
  In d dividers /\ top = cycles / d /\ 0 <= top < RESOLUTION /\
  forall d', In d' dividers -> cycles / d' < RESOLUTION -> d <= d'.
Proof.
  intros H0 H. cbv zeta. unfold dividers.
  chain;
    change (divider_of_bits 1) with 1; change (divider_of_bits 2) with 8;
    change (divider_of_bits 3) with 64; change (divider_of_bits 4) with 256;
    change (divider_of_bits 5) with 1024;
    try (exfalso; Z.to_euclidean_division_equations; lia).
  all: split; [ cbn; tauto | ].
  all: split; [ Z.to_euclidean_division_equations; lia | ].
  all: split; [ Z.to_euclidean_division_equations; lia | ].
  all: intros d' Hd' Hlt; cbn [In] in Hd';
    repeat (destruct Hd' as [<- | Hd']; [ try lia | ]); try contradiction;
    exfalso; Z.to_euclidean_division_equations; lia.
Qed.


End PrescaleFacts.

(** ** Period programming *)

Section PeriodFacts.

Variable F_CPU : Z.
Variable RESOLUTION : Z.

Hypothesis F_CPU_range : 0 <= F_CPU <= LONG_MAX.
Hypothesis RESOLUTION_range : 0 < RESOLUTION <= 65536.

Lemma cycles_per_us_quot : Z.quot F_CPU 2000000 = F_CPU / 2000000.
Proof. apply Z.quot_div_nonneg; lia. Qed.

Lemma cycles_per_us_nonneg : 0 <= F_CPU / 2000000.
Proof. apply Z.div_pos; lia. Qed.

(** What [setPeriod] leaves in each field, in terms of the prescale chain. *)
Lemma setPeriod_fields (microseconds : Z) (s : state) :
  let sel :=
    select_prescale RESOLUTION (to_long (Z.quot F_CPU 2000000 * microseconds))
  in
  let s' := setPeriod F_CPU RESOLUTION microseconds s in
  clockSelectBits s' = snd sel /\
  pwmPeriod s' = to_uint (fst sel) /\
  ICR1 s' = to_uint (fst sel) /\
  TCCR1B s' = Z.lor (Z.land (TCCR1B s) (Z.lnot CS_MASK)) (snd sel) /\
  SREG s' = SREG s /\
  accesses s' = accesses s ++ [Wr16 rICR1 (to_uint (fst sel)) true] /\
  TCCR1A s' = TCCR1A s /\ TIMSK1 s' = TIMSK1 s /\ GTCCR s' = GTCCR s /\
  DDRB s' = DDRB s /\ OCR1A s' = OCR1A s /\ OCR1B s' = OCR1B s /\
  tcnt1_in s' = tcnt1_in s /\ isrCallback s' = isrCallback s.
Proof.
  cbv zeta. unfold setPeriod.
  destruct (select_prescale _ _) as [top bits]. cbn [fst snd].
  unfold write_ICR1, restore_SREG, save_SREG, masked, cli.
  cbn -[Z.clearbit Z.testbit Z.land Z.lor Z.lnot to_uint CS_MASK].
  rewrite Z.clearbit_eq by (unfold SREG_I; lia).
  rewrite (to_uint_id (to_uint top)) by apply to_uint_range.
  repeat split; reflexivity.
Qed.

Lemma in_range_fits (p : Z) :
  representable F_CPU RESOLUTION p ->
  to_long (Z.quot F_CPU 2000000 * p) = cycles_of F_CPU p /\
  0 <= cycles_of F_CPU p.
Proof.
  intros [Hp Hr]. rewrite cycles_per_us_quot. unfold cycles_of in *.
  pose proof cycles_per_us_nonneg as Hk.
  assert (0 <= F_CPU / 2000000 * p) by nia.
  split; [ | assumption ].
  apply to_long_id. unfold LONG_MIN, LONG_MAX.
  Z.to_euclidean_division_equations; nia.
Qed.

(** C1 (as amended): for every representable period (nonnegative, and under
    [RESOLUTION] once divided by 1024), [setPeriod] leaves the smallest
    divider of 1, 8, 64, 256, 1024 that brings the cycle count
    [(F_CPU / 2000000) * microseconds] under [RESOLUTION], and both
    [pwmPeriod] and [ICR1] hold the cycle count divided by it. *)
Theorem setPeriod_smallest_divider (microseconds : Z) (s : state) :
  representable F_CPU RESOLUTION microseconds ->
  prescale_spec F_CPU RESOLUTION microseconds
    (setPeriod F_CPU RESOLUTION microseconds s).
Proof.
  intros Hrep.
  destruct (in_range_fits _ Hrep) as [Hfit Hnn]. destruct Hrep as [Hp Hr].
  destruct (setPeriod_fields microseconds s)
    as (Hb & Hpw & Hicr & _).
  rewrite Hfit in Hb, Hpw, Hicr.
  destruct (select_prescale_smallest RESOLUTION _ Hnn Hr)
    as (Hin & Htop & Hlt & Hmin).
  unfold prescale_spec. cbv zeta. rewrite Hb, Hpw, Hicr.
  rewrite <- Htop.
  rewrite to_uint_id by lia.
  repeat split; try assumption; lia.
Qed.

(** In-range half of the saturation rule: a nonnegative period whose cycle
    count fits a [long] and is still at least [RESOLUTION] after division by
    1024 gets the pattern of divider 1024 and the top [RESOLUTION - 1]. *)
Lemma setPeriod_saturates (microseconds : Z) (s : state) :
  0 <= microseconds ->
  cycles_of F_CPU microseconds <= LONG_MAX ->
  RESOLUTION <= cycles_of F_CPU microseconds / 1024 ->
  let s' := setPeriod F_CPU RESOLUTION microseconds s in
  divider_of_bits (clockSelectBits s') = 1024 /\
  pwmPeriod s' = RESOLUTION - 1 /\ ICR1 s' = RESOLUTION - 1.
Proof.
  intros Hp Hfit Hbig. cbv zeta.
  destruct (setPeriod_fields microseconds s) as (Hb & Hpw & Hicr & _).
  pose proof cycles_per_us_nonneg as Hk.
  rewrite cycles_per_us_quot in Hb, Hpw, Hicr.
  fold (cycles_of F_CPU microseconds) in Hb, Hpw, Hicr.
  rewrite to_long_id in Hb, Hpw, Hicr
    by (unfold LONG_MIN, cycles_of in *; nia).
  rewrite select_prescale_saturated in Hb, Hpw, Hicr by lia.
  cbn [fst snd] in *. rewrite Hb, Hpw, Hicr.
  rewrite to_uint_id by lia. repeat split; reflexivity.
Qed.

(** C6: among representable periods, a longer period never gets a smaller
    divider. *)
Theorem setPeriod_divider_monotone (p1 p2 : Z) (s1 s2 : state) :
  0 <= p1 <= p2 ->
  representable F_CPU RESOLUTION p2 ->
  divider_of_bits (clockSelectBits (setPeriod F_CPU RESOLUTION p1 s1))
  <= divider_of_bits (clockSelectBits (setPeriod F_CPU RESOLUTION p2 s2)).
Proof.
  intros Hle Hrep2.
  pose proof cycles_per_us_nonneg as Hk.
  assert (Hrep1 : representable F_CPU RESOLUTION p1).
  { destruct Hrep2 as [_ Hr]. split; [ lia | ].
    unfold cycles_of in *.
    assert (F_CPU / 2000000 * p1 <= F_CPU / 2000000 * p2) by nia.
    Z.to_euclidean_division_equations; lia. }
  destruct (in_range_fits _ Hrep1) as [Hf1 _].
  destruct (in_range_fits _ Hrep2) as [Hf2 _].
  destruct (setPeriod_fields p1 s1) as (Hb1 & _).
  destruct (setPeriod_fields p2 s2) as (Hb2 & _).
  rewrite Hb1, Hb2, Hf1, Hf2.
  apply select_prescale_monotone. unfold cycles_of. nia.
Qed.

End PeriodFacts.

Lemma setPeriod_smallest_divider_witness :
  representable 16000000 65536 1000000 /\
  prescale_spec 16000000 65536 1000000
    (setPeriod 16000000 65536 1000000 reset_state).
Proof.
  assert (Hrep : representable 16000000 65536 1000000).
  { split; [ lia | reflexivity ]. }
  split; [ exact Hrep | ].
  apply setPeriod_smallest_divider;
    [ unfold LONG_MAX; lia | lia | exact Hrep ].
Defined.

(** C1 as worded, for every period, fails: a period of 100 s asks for more
    cycles than any divider brings under [RESOLUTION], and the top left by
    [setPeriod] is then not the cycle count divided by a divider. *)
Lemma setPeriod_smallest_divider_fails_out_of_range :
  ~ prescale_spec 16000000 65536 100000000
      (setPeriod 16000000 65536 100000000 reset_state).
Proof.
  unfold prescale_spec. cbv zeta. intros (_ & Hlt & _).
  vm_compute in Hlt. discriminate Hlt.
Qed.

Lemma setPeriod_divider_monotone_witness :
  (0 <= 1000 <= 1000000) /\
  representable 16000000 65536 1000000 /\
  divider_of_bits
    (clockSelectBits (setPeriod 16000000 65536 1000 reset_state))
  <= divider_of_bits
       (clockSelectBits (setPeriod 16000000 65536 1000000 reset_state)).
Proof.
  assert (Hrep : representable 16000000 65536 1000000).
  { split; [ lia | reflexivity ]. }
  split; [ lia | ]. split; [ exact Hrep | ].
  apply setPeriod_divider_monotone;
    [ unfold LONG_MAX; lia | lia | lia | exact Hrep ].
Defined.

(** C5 at a period of 2^28 microseconds with a 16 MHz clock: the cycle count
    2^31 is far beyond what divider 1024 can represent, yet it does not fit
    the [long] it is computed in, and [setPeriod] ends with no prescaling and
    a top of 0 instead of divider 1024 and [RESOLUTION - 1]. *)
Example setPeriod_overflow_not_saturated :
  let s' := setPeriod 16000000 65536 268435456 reset_state in
  65536 <= cycles_of 16000000 268435456 / 1024 /\
  clockSelectBits s' = 1 /\ divider_of_bits (clockSelectBits s') = 1 /\
  pwmPeriod s' = 0 /\ ICR1 s' = 0.
Proof. vm_compute. repeat split; discriminate. Qed.

(** ** The busy-wait *)

(** One turn of the loop body. *)
Lemma poll_once (s : state) (v : Z) (rest : list Z) :
  tcnt1_in s = v :: rest ->
  option_map (fun '(t, s1) => (t, restore_SREG s1))
    (read_TCNT1 (cli (save_SREG s)))
  = Some (to_uint v, polled 1 rest s).
Proof.
  intros H. unfold read_TCNT1, masked, cli, save_SREG, restore_SREG, polled.
  cbn -[Z.clearbit Z.testbit to_uint]. rewrite H.
  cbn -[Z.clearbit Z.testbit to_uint].
  rewrite Z.clearbit_eq by (unfold SREG_I; lia). reflexivity.
Qed.

Lemma poll_once_split (s : state) (v : Z) (rest : list Z) :
  tcnt1_in s = v :: rest ->
  exists s1,
    read_TCNT1 (cli (save_SREG s)) = Some (to_uint v, s1) /\
    restore_SREG s1 = polled 1 rest s.
Proof.
  intros H. pose proof (poll_once s v rest H) as H1.
  destruct (read_TCNT1 (cli (save_SREG s))) as [[t s1] | ]; [ | discriminate ].
  cbn [option_map] in H1. exists s1. split; congruence.
Qed.

Lemma polled_polled (n m : nat) (r1 r2 : list Z) (s : state) :
  polled n r2 (polled m r1 s) = polled (m + n) r2 s.
Proof.
  unfold polled. cbn. rewrite <- app_assoc, <- repeat_app. reflexivity.
Qed.

Lemma wait_change_unfold (fuel : nat) (tmp : Z) (s : state) :
  wait_change (S fuel) tmp s =
  match option_map (fun '(t, s1) => (t, restore_SREG s1))
          (read_TCNT1 (cli (save_SREG s))) with
  | None => None
  | Some (tcnt1, s1) =>
      if tcnt1 =? tmp then wait_change fuel tmp s1 else Some (tcnt1, s1)
  end.
Proof.
  cbn [wait_change]. destruct (read_TCNT1 _) as [[t s1] | ]; reflexivity.
Qed.

(** With samples that repeat [tmp] and then differ, and fuel for all of
    them, the wait ends at the first different sample. *)
Lemma wait_change_polled (same : list Z) :
  forall (fuel : nat) (tmp : Z) (s : state) (b : Z) (rest : list Z),
    tcnt1_in s = same ++ b :: rest ->
    Forall (fun v => to_uint v = tmp) same ->
    to_uint b <> tmp ->
    (length same < fuel)%nat ->
    wait_change fuel tmp s
    = Some (to_uint b, polled (S (length same)) rest s).
Proof.
  induction same as [ | v same IH]; intros fuel tmp s b rest Hin Hsame Hb Hf.
  - destruct fuel as [ | fuel]; [ cbn in Hf; lia | ].
    rewrite wait_change_unfold, (poll_once s b rest Hin). cbn [option_map].
    apply Z.eqb_neq in Hb. rewrite Hb. reflexivity.
  - destruct fuel as [ | fuel]; [ cbn in Hf; lia | ].
    rewrite wait_change_unfold, (poll_once s v (same ++ b :: rest) Hin).
    inversion Hsame as [ | ? ? Hv Hrest]; subst.
    rewrite Z.eqb_refl.
    rewrite (IH fuel (to_uint v) _ b rest); try assumption;
      [ | reflexivity | cbn in Hf; lia ].
    rewrite polled_polled. reflexivity.
Qed.

(** Whenever the wait ends, it has only polled. *)
Lemma wait_change_some (fuel : nat) :
  forall (tmp : Z) (s : state) (r : Z) (s' : state),
    wait_change fuel tmp s = Some (r, s') ->
    exists n rest, s' = polled n rest s.
Proof.
  induction fuel as [ | fuel IH]; intros tmp s r s' H; [ discriminate | ].
  rewrite wait_change_unfold in H.
  destruct (tcnt1_in s) as [ | v rest] eqn:Hin.
  - unfold read_TCNT1 in H. cbn in H. rewrite Hin in H. discriminate.
  - rewrite (poll_once s v rest Hin) in H.
    destruct (to_uint v =? tmp).
    + apply IH in H. destruct H as (n & rest' & ->).
      rewrite polled_polled. eauto.
    + inversion H; subst. eauto.
Qed.

(** ** Reading the elapsed time *)

Lemma scale_switch_log2 (bits : Z) :
  In bits [1; 2; 3; 4; 5] ->
  scale_switch bits = Some (Z.log2 (divider_of_bits bits)).
Proof.
  intros H. cbn [In] in H.
  repeat (destruct H as [<- | H]; [ reflexivity | ]). contradiction.
Qed.

(** Without a matching case [scale] stays 0, which is also the log2 of the
    0 that [divider_of_bits] gives such a pattern. *)
Lemma scale_switch_default_log2 (bits : Z) :
  match scale_switch bits with Some sc => sc | None => 0 end
  = Z.log2 (divider_of_bits bits).
Proof.
  unfold scale_switch, divider_of_bits.
  repeat (destruct (bits =? _); [ reflexivity | ]). reflexivity.
Qed.

Section ReadFacts.

Variable F_CPU : Z.

(** What [read()] computes from a first sample [a], repeats of it, and a
    different sample [b]. *)
Lemma read_result (s : state) (a b : Z) (same rest : list Z) :
  tcnt1_in s = a :: same ++ b :: rest ->
  Forall (fun v => to_uint v = to_uint a) same ->
  to_uint b <> to_uint a ->
  let scale :=
    match scale_switch (clockSelectBits s) with Some sc => sc | None => 0 end
  in
  let s2 := polled (2 + length same) rest s in
  let us ticks :=
    to_ulong (Z.shiftl (to_ulong (ticks * 1000) / to_ulong (Z.quot F_CPU 1000))
                scale) in
  read F_CPU s =
  if to_uint a <? to_uint b then Some (us (to_uint a), s2)
  else
    Some (us (to_ulong (to_uint (ICR1 s - to_uint b) + ICR1 s)),
          log_access (Rd16 rICR1 (masked s))
            (log_access (Rd16 rICR1 (masked s)) s2)).
Proof.
  intros Hin Hsame Hb. cbv zeta. unfold read.
  destruct (poll_once_split s a (same ++ b :: rest) Hin) as (s1 & -> & ->).
  change (tcnt1_in (polled 1 (same ++ b :: rest) s)) with (same ++ b :: rest).
  change (clockSelectBits (polled 1 (same ++ b :: rest) s))
    with (clockSelectBits s).
  rewrite (wait_change_polled same _ (to_uint a) _ b rest);
    [ | reflexivity | assumption | assumption
      | rewrite length_app; cbn; lia ].
  rewrite polled_polled. cbn [Nat.add].
  destruct (to_uint a <? to_uint b); reflexivity.
Qed.

(** C3 (as amended): [read()] takes a first sample, polls until the counter
    shows a different one, and when that second sample is smaller (counting
    down) the tick count is the 16-bit difference [(ICR1 - secondSample) mod
    2^16] plus [ICR1], without the first sample; the difference is plainly
    [ICR1 - secondSample] when the sample is not above the top.  The result
    is [ticks * 1000 / (F_CPU / 1000)] shifted left by the log2 of the divider
    in force (not shifted when [clockSelectBits] holds no pattern). *)
Theorem read_down_count (s : state) (a b : Z) (n : nat) (rest : list Z) :
  0 <= F_CPU <= LONG_MAX ->
  tcnt1_in s = a :: repeat a n ++ b :: rest ->
  0 <= b < a -> a < 65536 ->
  0 <= ICR1 s < 65536 ->
  (exists s',
     read F_CPU s
     = Some (microseconds_of_ticks F_CPU
               ((ICR1 s - b) mod 65536 + ICR1 s) (clockSelectBits s), s') /\
     tcnt1_in s' = rest) /\
  (b <= ICR1 s -> (ICR1 s - b) mod 65536 = ICR1 s - b).
Proof.
  intros HF Hin Hba Ha Htop.
  assert (Hua : to_uint a = a) by (apply to_uint_id; lia).
  assert (Hub : to_uint b = b) by (apply to_uint_id; lia).
  split; [ | intros Hle; apply Z.mod_small; lia ].
  rewrite (read_result s a b (repeat a n) rest Hin).
  - rewrite Hua, Hub.
    destruct (Z.ltb_spec a b) as [Hlt | _]; [ lia | ].
    rewrite scale_switch_default_log2.
    unfold microseconds_of_ticks.
    pose proof (to_uint_range (ICR1 s - b)) as Hd.
    change (to_uint (ICR1 s - b)) with ((ICR1 s - b) mod 65536) in *.
    rewrite (to_ulong_id ((ICR1 s - b) mod 65536 + ICR1 s)) by lia.
    rewrite (to_ulong_id (((ICR1 s - b) mod 65536 + ICR1 s) * 1000)) by lia.
    rewrite Z.quot_div_nonneg by lia.
    rewrite (to_ulong_id (F_CPU / 1000))
      by (unfold LONG_MAX in HF; Z.to_euclidean_division_equations; lia).
    eexists. split; reflexivity.
  - apply Forall_forall. intros v Hv. apply repeat_spec in Hv. now subst.
  - lia.
Qed.

End ReadFacts.

Lemma read_down_count_witness :
  tcnt1_in down_count_example = 500 :: repeat 500 0 ++ 499 :: [] /\
  0 <= 499 < 500 /\
  0 <= ICR1 down_count_example < 65536 /\
  exists s',
    read 16000000 down_count_example
    = Some (microseconds_of_ticks 16000000
              ((1000 - 499) mod 65536 + 1000) 1, s') /\
    tcnt1_in s' = [].
Proof.
  assert (HF : 0 <= 16000000 <= LONG_MAX) by (unfold LONG_MAX; lia).
  assert (Hin : tcnt1_in down_count_example
                = 500 :: repeat 500 0 ++ 499 :: []) by reflexivity.
  assert (Hba : 0 <= 499 < 500) by lia.
  assert (Ha : 500 < 65536) by lia.
  assert (Htop : 0 <= ICR1 down_count_example < 65536) by (cbn; lia).
  split; [ exact Hin | ]. split; [ exact Hba | ]. split; [ exact Htop | ].
  exact (proj1 (read_down_count 16000000 down_count_example 500 499 0 []
                  HF Hin Hba Ha Htop)).
Defined.

(** C3 as worded fails: with top 1000 and samples 500 then 499, [read()]
    returns 93 microseconds (1501 ticks), not the 125 microseconds that
    500 + (1000 - 499) + 1000 = 2001 ticks would give. *)
Lemma read_down_count_omits_first_sample :
  option_map fst (read 16000000 down_count_example) = Some 93 /\
  option_map fst (read 16000000 down_count_example)
  <> Some (microseconds_of_ticks 16000000 (spec_down_ticks 500 499 1000) 1).
Proof. split; [ reflexivity | vm_compute; discriminate ]. Qed.

(** With the top lowered under a running counter (top 1000, samples 2000 then
    1999) the 16-bit difference wraps: 64537 + 1000 = 65537 ticks, 4096
    microseconds. *)
Example read_down_count_above_top :
  option_map fst (read 16000000 lowered_top_example) = Some 4096 /\
  microseconds_of_ticks 16000000 ((1000 - 1999) mod 65536 + 1000) 1 = 4096.
Proof. split; reflexivity. Qed.

(** C2 on [read()]: called with interrupts enabled while the counter counts
    down, it loads ICR1 twice after SREG has been restored, so those two
    accesses are not masked (the two loads of TCNT1 before them are). *)
Example read_loads_ICR1_unmasked :
  option_map (fun r => accesses (snd r)) (read 16000000 down_count_example)
  = Some [Rd16 rTCNT1 true; Rd16 rTCNT1 true;
          Rd16 rICR1 false; Rd16 rICR1 false] /\
  option_map (fun r => all_masked (accesses (snd r)))
    (read 16000000 down_count_example) = Some false.
Proof. split; reflexivity. Qed.

(** ** Mode control, channels and the interrupt mask *)

Lemma restore_after_cli (s : state) :
  restore_SREG (cli (save_SREG s)) = save_SREG s.
Proof. destruct s; reflexivity. Qed.

Lemma testbit_BV_other (bit b : Z) :
  0 <= bit -> b <> bit -> Z.testbit (_BV bit) b = false.
Proof.
  intros Hbit Hb. unfold _BV.
  destruct (Z.neg_nonneg_cases b) as [Hneg | Hnn].
  - apply Z.testbit_neg_r. exact Hneg.
  - rewrite Z.shiftl_spec by exact Hnn.
    destruct (Z.neg_nonneg_cases (b - bit)) as [Hlt | Hge].
    + apply Z.testbit_neg_r. exact Hlt.
    + apply Z.bits_above_log2; cbn; lia.
Qed.

Section ModeFacts.

Variable F_CPU : Z.
Variable RESOLUTION : Z.

(** C4 (as amended): [initialize] clears TCCR1A and puts TCCR1B in mode 8
    with the clock stopped, then [setPeriod] runs the prescale chain, programs
    the top and writes the selected clock-select pattern into TCCR1B, so on
    return the clock-select field holds one of the patterns 1 to 5 and the
    timer is running. *)
Theorem initialize_leaves_clock_running (microseconds : Z) (s : state) :
  let s' := initialize F_CPU RESOLUTION microseconds s in
  let sel :=
    select_prescale RESOLUTION (to_long (Z.quot F_CPU 2000000 * microseconds))
  in
  TCCR1A s' = 0 /\
  TCCR1B s' = Z.lor (_BV WGM13) (clockSelectBits s') /\
  clockSelectBits s' = snd sel /\
  pwmPeriod s' = to_uint (fst sel) /\
  ICR1 s' = pwmPeriod s' /\
  Z.land (TCCR1B s') CS_MASK = clockSelectBits s' /\
  In (clockSelectBits s') [1; 2; 3; 4; 5] /\
  is_running s' = true.
Proof.
  cbv zeta. unfold initialize.
  destruct (setPeriod_fields F_CPU RESOLUTION microseconds
              (set_TCCR1B (_BV WGM13) (set_TCCR1A 0 s)))
    as (Hb & Hpw & Hicr & Htc & _ & _ & Ha & _).
  pose proof (select_prescale_bits RESOLUTION
                (to_long (Z.quot F_CPU 2000000 * microseconds))) as Hin.
  rewrite <- Hb in Hin, Htc.
  cbn [TCCR1A TCCR1B set_TCCR1A set_TCCR1B] in Htc, Ha.
  assert (Hland :
    Z.land (TCCR1B (setPeriod F_CPU RESOLUTION microseconds
                      (set_TCCR1B (_BV WGM13) (set_TCCR1A 0 s)))) CS_MASK
    = clockSelectBits (setPeriod F_CPU RESOLUTION microseconds
                         (set_TCCR1B (_BV WGM13) (set_TCCR1A 0 s)))).
  { rewrite Htc. apply clock_select_field. cbn [In] in Hin. lia. }
  repeat split; try assumption.
  - congruence.
  - unfold is_running, is_stopped. rewrite Hland.
    cbn [In] in Hin. destruct (Z.eqb_spec (clockSelectBits
      (setPeriod F_CPU RESOLUTION microseconds
         (set_TCCR1B (_BV WGM13) (set_TCCR1A 0 s)))) 0); [ lia | reflexivity ].
Qed.

(** C10: [attachInterrupt] leaves TIMSK1 equal to the overflow enable bit
    alone, so every other enable bit of the register is clear afterwards,
    whatever it was before. *)
Theorem attachInterrupt_overwrites_TIMSK1
  (isr : isr_t) (microseconds : Z) (s : state) :
  let s' := attachInterrupt F_CPU RESOLUTION isr microseconds s in
  TIMSK1 s' = _BV TOIE1 /\
  Z.testbit (TIMSK1 s') TOIE1 = true /\
  (forall b, b <> TOIE1 -> Z.testbit (TIMSK1 s') b = false) /\
  isrCallback s' = Some isr.
Proof.
  cbv zeta. unfold attachInterrupt, resume.
  cbn [TIMSK1 set_TCCR1B set_TIMSK1 isrCallback set_isrCallback].
  repeat split.
  intros b Hb. apply testbit_BV_other; [ unfold TOIE1; lia | exact Hb ].
Qed.

End ModeFacts.

(** C4 as worded fails: after [initialize(1000)] the clock-select field of
    TCCR1B is not clear. *)
Lemma initialize_not_stopped :
  is_stopped (initialize 16000000 65536 1000 reset_state) <> true.
Proof. vm_compute. discriminate. Qed.

(** ** PWM channels *)

Lemma channel_of_pin_cases (pin : Z) :
  match channel_of_pin pin with
  | Some ChannelA => (pin =? 1) || (pin =? 9) = true
  | Some ChannelB =>
      (pin =? 1) || (pin =? 9) = false /\ (pin =? 2) || (pin =? 10) = true
  | None =>
      (pin =? 1) || (pin =? 9) = false /\ (pin =? 2) || (pin =? 10) = false
  end.
Proof.
  unfold channel_of_pin.
  destruct ((pin =? 1) || (pin =? 9)); [ reflexivity | ].
  destruct ((pin =? 2) || (pin =? 10)); split; reflexivity.
Qed.

(** The duty value is exact for a 10-bit fraction of a 16-bit top. *)
Lemma duty_value_exact (top duty : Z) :
  0 <= top < 65536 -> 0 <= duty <= 1023 ->
  to_uint (Z.shiftr (to_ulong (to_ulong top * to_ulong duty)) 10)
  = Z.shiftr (top * duty) 10.
Proof.
  intros Ht Hd.
  rewrite (to_ulong_id top), (to_ulong_id duty) by lia.
  rewrite to_ulong_id by nia.
  apply to_uint_id. rewrite Z.shiftr_div_pow2 by lia.
  change (2 ^ 10) with 1024.
  assert (0 <= top * duty < 65536 * 1024) by nia.
  Z.to_euclidean_division_equations; lia.
Qed.

(** C8: on a valid channel and a duty fraction of 0 to 1023, [setPwmDuty]
    stores [(pwmPeriod * duty) >> 10] in that channel's compare register, in
    one masked access, and leaves the other channel's compare register, the
    control registers (so the run state), the top, the pending counter
    samples and the interrupt state as they were. *)
Theorem setPwmDuty_frame (pin duty : Z) (c : channel) (s : state) :
  channel_of_pin pin = Some c ->
  0 <= duty <= 1023 ->
  0 <= pwmPeriod s < 65536 ->
  let s' := setPwmDuty pin duty s in
  let v := Z.shiftr (pwmPeriod s * duty) 10 in
  duty_of c s' = v /\
  duty_of (other c) s' = duty_of (other c) s /\
  accesses s' = accesses s ++ [Wr16 (duty_reg c) v true] /\
  TCCR1A s' = TCCR1A s /\ TCCR1B s' = TCCR1B s /\
  is_running s' = is_running s /\
  tcnt1_in s' = tcnt1_in s /\ ICR1 s' = ICR1 s /\
  pwmPeriod s' = pwmPeriod s /\ clockSelectBits s' = clockSelectBits s /\
  TIMSK1 s' = TIMSK1 s /\ GTCCR s' = GTCCR s /\ DDRB s' = DDRB s /\
  SREG s' = SREG s /\ isrCallback s' = isrCallback s.
Proof.
  intros Hc Hd Ht. cbv zeta.
  pose proof (channel_of_pin_cases pin) as Hpin. rewrite Hc in Hpin.
  pose proof (duty_value_exact _ _ Ht Hd) as Hv.
  unfold setPwmDuty.
  destruct c; [ rewrite Hpin | destruct Hpin as [-> ->] ];
    unfold write_OCR1A, write_OCR1B, restore_SREG, save_SREG, masked, cli,
      is_running, is_stopped;
    cbn -[Z.clearbit Z.testbit Z.land Z.lor Z.lnot Z.shiftr to_uint to_ulong
          CS_MASK Z.mul];
    rewrite Z.clearbit_eq by (unfold SREG_I; lia);
    rewrite Hv; repeat split; reflexivity.
Qed.

Section ChannelFacts.

Variable F_CPU : Z.
Variable RESOLUTION : Z.

(** C7 (as amended): for an identifier that selects neither channel,
    [disablePwm] changes nothing; [setPwmDuty] writes no register and only
    refreshes the saved status byte [oldSREG]; [pwm] sets no direction or
    output bit and writes no duty, but still applies a positive period through
    [setPeriod] and still ORs the clock-select pattern into TCCR1B. *)
Theorem invalid_pin_effects (pin duty microseconds : Z) (s : state) :
  channel_of_pin pin = None ->
  disablePwm pin s = s /\
  setPwmDuty pin duty s = save_SREG s /\
  pwm F_CPU RESOLUTION pin duty microseconds s
  = resume (save_SREG (if 0 <? microseconds
                       then setPeriod F_CPU RESOLUTION microseconds s
                       else s)).
Proof.
  intros Hc.
  pose proof (channel_of_pin_cases pin) as Hpin. rewrite Hc in Hpin.
  destruct Hpin as [H1 H2].
  assert (Hduty : forall t, setPwmDuty pin duty t = save_SREG t).
  { intros t. unfold setPwmDuty. rewrite H1, H2. apply restore_after_cli. }
  repeat split.
  - unfold disablePwm. rewrite H1, H2. reflexivity.
  - apply Hduty.
  - unfold pwm. rewrite H1, H2, Hduty. reflexivity.
Qed.

End ChannelFacts.

Lemma setPwmDuty_frame_witness :
  let s := initialize 16000000 65536 1000 reset_state in
  channel_of_pin 9 = Some ChannelA /\
  0 <= 512 <= 1023 /\
  0 <= pwmPeriod s < 65536 /\
  OCR1A (setPwmDuty 9 512 s) = 4000 /\
  OCR1B (setPwmDuty 9 512 s) = OCR1B s /\
  TCCR1B (setPwmDuty 9 512 s) = TCCR1B s.
Proof.
  cbv zeta.
  assert (Hc : channel_of_pin 9 = Some ChannelA) by reflexivity.
  assert (Hd : 0 <= 512 <= 1023) by lia.
  assert (Ht : 0 <= pwmPeriod (initialize 16000000 65536 1000 reset_state)
               < 65536) by (vm_compute; split; [ discriminate | reflexivity ]).
  destruct (setPwmDuty_frame 9 512 ChannelA _ Hc Hd Ht)
    as (Hv & Ho & _ & _ & Hb & _).
  split; [ exact Hc | ]. split; [ exact Hd | ]. split; [ exact Ht | ].
  split; [ exact Hv | ]. split; [ exact Ho | exact Hb ].
Defined.

Lemma invalid_pin_effects_witness :
  channel_of_pin 5 = None /\
  disablePwm 5 reset_state = reset_state /\
  setPwmDuty 5 512 reset_state = save_SREG reset_state.
Proof.
  assert (Hc : channel_of_pin 5 = None) by reflexivity.
  destruct (invalid_pin_effects 16000000 65536 5 512 0 reset_state Hc)
    as (H1 & H2 & _).
  repeat split; assumption.
Defined.

(** C7 as worded fails for [pwm]: called with an identifier that selects no
    channel on a stopped timer, it sets the clock-select bits again. *)
Lemma pwm_invalid_pin_restarts_clock :
  let s := stop (initialize 16000000 65536 1000 reset_state) in
  channel_of_pin 5 = None /\
  is_stopped s = true /\
  is_stopped (pwm 16000000 65536 5 512 0 s) = false /\
  pwm 16000000 65536 5 512 0 s <> s.
Proof.
  cbv zeta. repeat split.
  intros H. apply (f_equal TCCR1B) in H. vm_compute in H. discriminate H.
Qed.

(** ** The invariant on [clockSelectBits] and [pwmPeriod] *)


Lemma restart_unfold (s : state) : restart s = start s.
Proof. reflexivity. Qed.



Section InvariantFacts.

Variable F_CPU : Z.
Variable RESOLUTION : Z.

Hypothesis F_CPU_range : 0 <= F_CPU <= LONG_MAX.
Hypothesis RESOLUTION_range : 0 < RESOLUTION <= 65536.









End InvariantFacts.



(** ** Where the critical-section discipline holds *)

Lemma guarded_same (s s' : state) :
  SREG s' = SREG s -> accesses s' = accesses s -> guarded s s'.
Proof.
  intros H1 H2. split; [ exact H1 | ].
  exists []. rewrite app_nil_r. split; [ exact H2 | reflexivity ].
Qed.

Lemma guarded_trans (s1 s2 s3 : state) :
  guarded s1 s2 -> guarded s2 s3 -> guarded s1 s3.
Proof.
  intros [H1 (l1 & A1 & M1)] [H2 (l2 & A2 & M2)].
  split; [ congruence | ].
  exists (l1 ++ l2). split.
  - rewrite A2, A1, app_assoc. reflexivity.
  - unfold all_masked in *. rewrite forallb_app, M1, M2. reflexivity.
Qed.

Lemma all_masked_repeat (r : reg16) (n : nat) :
  all_masked (repeat (Rd16 r true) n) = true.
Proof. induction n as [ | n IH]; [ reflexivity | exact IH ]. Qed.

Lemma guarded_polled (n : nat) (rest : list Z) (s : state) :
  guarded s (polled n rest s).
Proof.
  split; [ reflexivity | ].
  exists (repeat (Rd16 rTCNT1 true) n).
  split; [ reflexivity | apply all_masked_repeat ].
Qed.

Lemma setPwmDuty_guarded (pin duty : Z) (s : state) :
  guarded s (setPwmDuty pin duty s).
Proof.
  unfold setPwmDuty.
  destruct ((pin =? 1) || (pin =? 9));
    [ | destruct ((pin =? 2) || (pin =? 10)) ].
  3: { rewrite restore_after_cli. apply guarded_same; reflexivity. }
  all: split; [ reflexivity | ];
    unfold write_OCR1A, write_OCR1B, restore_SREG, save_SREG, masked, cli;
    cbn -[Z.clearbit Z.testbit Z.shiftr to_uint to_ulong Z.mul];
    rewrite Z.clearbit_eq by (unfold SREG_I; lia);
    eexists; split; reflexivity.
Qed.

Lemma start_guarded (s s' : state) : start s = Some s' -> guarded s s'.
Proof.
  unfold start. intros H.
  destruct (wait_change _ _ _) as [[t s2] | ] eqn:Hw; [ | discriminate ].
  apply wait_change_some in Hw. destruct Hw as (n & rest & ->).
  inversion H; subst. clear H.
  eapply guarded_trans; [ | apply guarded_polled ].
  split; [ reflexivity | ].
  unfold resume, write_TCNT1, restore_SREG, save_SREG, masked, cli.
  cbn -[Z.clearbit Z.testbit to_uint Z.land Z.lor Z.lnot].
  rewrite Z.clearbit_eq by (unfold SREG_I; lia).
  eexists; split; reflexivity.
Qed.

Section GuardFacts.

Variable F_CPU : Z.
Variable RESOLUTION : Z.

Lemma setPeriod_guarded (microseconds : Z) (s : state) :
  guarded s (setPeriod F_CPU RESOLUTION microseconds s).
Proof.
  destruct (setPeriod_fields F_CPU RESOLUTION microseconds s)
    as (_ & _ & _ & _ & HS & HA & _).
  split; [ exact HS | ]. eexists. split; [ exact HA | reflexivity ].
Qed.

Lemma maybe_setPeriod_guarded (microseconds : Z) (s : state) :
  guarded s (if 0 <? microseconds
             then setPeriod F_CPU RESOLUTION microseconds s else s).
Proof.
  destruct (0 <? microseconds);
    [ apply setPeriod_guarded | apply guarded_same; reflexivity ].
Qed.

(** Every operation but [read()] keeps the discipline of the header comment:
    its 16-bit accesses are all masked and SREG is restored. *)
Lemma pwm_guarded (pin duty microseconds : Z) (s : state) :
  guarded s (pwm F_CPU RESOLUTION pin duty microseconds s).
Proof.
  unfold pwm.
  pose proof (maybe_setPeriod_guarded microseconds s) as H1.
  set (s1 := if 0 <? microseconds
             then setPeriod F_CPU RESOLUTION microseconds s else s) in *.
  match goal with
  | |- context [setPwmDuty pin duty ?t] => set (s2 := t)
  end.
  assert (H2 : guarded s1 s2).
  { subst s2.
    destruct ((pin =? 1) || (pin =? 9));
      [ | destruct ((pin =? 2) || (pin =? 10)) ];
      apply guarded_same; reflexivity. }
  apply guarded_trans with s1; [ exact H1 | ].
  apply guarded_trans with s2; [ exact H2 | ].
  apply guarded_trans with (setPwmDuty pin duty s2);
    [ apply setPwmDuty_guarded | ].
  apply guarded_same; reflexivity.
Qed.

Lemma attachInterrupt_guarded (isr : isr_t) (microseconds : Z) (s : state) :
  guarded s (attachInterrupt F_CPU RESOLUTION isr microseconds s).
Proof.
  unfold attachInterrupt.
  pose proof (maybe_setPeriod_guarded microseconds s) as H1.
  set (s1 := if 0 <? microseconds
             then setPeriod F_CPU RESOLUTION microseconds s else s) in *.
  apply guarded_trans with s1; [ exact H1 | ].
  apply guarded_same; reflexivity.
Qed.

Lemma initialize_guarded (microseconds : Z) (s : state) :
  guarded s (initialize F_CPU RESOLUTION microseconds s).
Proof.
  unfold initialize.
  apply guarded_trans with (set_TCCR1B (_BV WGM13) (set_TCCR1A 0 s));
    [ apply guarded_same; reflexivity | apply setPeriod_guarded ].
Qed.

Lemma disablePwm_guarded (pin : Z) (s : state) :
  guarded s (disablePwm pin s).
Proof.
  unfold disablePwm.
  destruct ((pin =? 1) || (pin =? 9));
    [ | destruct ((pin =? 2) || (pin =? 10)) ];
    apply guarded_same; reflexivity.
Qed.

(** Every operation but [read()] keeps the discipline of the header comment:
    its 16-bit accesses are all masked and SREG is restored. *)
Lemma run_op_guarded (o : op) (s s' : state) :
  o <> OpRead ->
  run_op F_CPU RESOLUTION o s = Some s' ->
  guarded s s'.
Proof.
  intros Ho.
  destruct o as [us | us | pin duty | pin duty us | pin | isr us
                | | | | | | ];
    cbn [run_op]; intros Hrun.
  - inversion Hrun; subst s'. apply initialize_guarded.
  - inversion Hrun; subst s'. apply setPeriod_guarded.
  - inversion Hrun; subst s'. apply setPwmDuty_guarded.
  - inversion Hrun; subst s'. apply pwm_guarded.
  - inversion Hrun; subst s'. apply disablePwm_guarded.
  - inversion Hrun; subst s'. apply attachInterrupt_guarded.
  - inversion Hrun; subst s'. apply guarded_same; reflexivity.
  - inversion Hrun; subst s'. apply guarded_same; reflexivity.
  - rewrite restart_unfold in Hrun. apply start_guarded, Hrun.
  - apply start_guarded, Hrun.
  - inversion Hrun; subst s'. apply guarded_same; reflexivity.
  - congruence.
Qed.

(** In [read()], while counting down, the two loads of ICR1 come after the
    status register is restored: they are masked only when the caller already
    had interrupts off. *)
Lemma read_down_count_accesses
  (s : state) (a b : Z) (n : nat) (rest : list Z) :
  tcnt1_in s = a :: repeat a n ++ b :: rest ->
  0 <= b < a -> a < 65536 ->
  exists r s',
    read F_CPU s = Some (r, s') /\
    SREG s' = SREG s /\
    accesses s' = accesses s ++ repeat (Rd16 rTCNT1 true) (2 + n)
                    ++ [Rd16 rICR1 (masked s); Rd16 rICR1 (masked s)].
Proof.
  intros Hin Hba Ha.
  assert (Hua : to_uint a = a) by (apply to_uint_id; lia).
  assert (Hub : to_uint b = b) by (apply to_uint_id; lia).
  rewrite (read_result F_CPU s a b (repeat a n) rest Hin).
  - rewrite Hua, Hub.
    destruct (Z.ltb_spec a b) as [Hlt | _]; [ lia | ].
    do 2 eexists. split; [ reflexivity | ].
    split; [ reflexivity | ].
    unfold log_access, polled. cbn [accesses].
    rewrite repeat_length, <- !app_assoc. reflexivity.
  - apply Forall_forall. intros v Hv. apply repeat_spec in Hv. now subst.
  - lia.
Qed.

End GuardFacts.

(** * Further properties of the driver *)

(** ** Bits of the control registers *)

Lemma testbit_BV_same (bit : Z) : 0 <= bit -> Z.testbit (_BV bit) bit = true.
Proof.
  intros H. unfold _BV. rewrite Z.shiftl_spec by exact H.
  rewrite Z.sub_diag. reflexivity.
Qed.

Lemma testbit_set_BV (r bit b : Z) :
  0 <= bit ->
  Z.testbit (Z.lor r (_BV bit)) b = if b =? bit then true else Z.testbit r b.
Proof.
  intros H. rewrite Z.lor_spec.
  destruct (Z.eqb_spec b bit) as [-> | Hne].
  - rewrite testbit_BV_same by exact H. apply orb_true_r.
  - rewrite testbit_BV_other by assumption. apply orb_false_r.
Qed.

Lemma testbit_clear_BV (r bit b : Z) :
  0 <= bit ->
  Z.testbit (Z.land r (Z.lnot (_BV bit))) b
  = if b =? bit then false else Z.testbit r b.
Proof.
  intros H.
  destruct (Z.neg_nonneg_cases b) as [Hneg | Hnn].
  - rewrite !Z.testbit_neg_r by exact Hneg.
    destruct (b =? bit); reflexivity.
  - rewrite Z.land_spec, Z.lnot_spec by exact Hnn.
    destruct (Z.eqb_spec b bit) as [-> | Hne].
    + rewrite testbit_BV_same by exact H. apply andb_false_r.
    + rewrite testbit_BV_other by assumption. apply andb_true_r.
Qed.

Lemma testbit_clear_clock_select (r b : Z) :
  3 <= b -> Z.testbit (Z.land r (Z.lnot CS_MASK)) b = Z.testbit r b.
Proof.
  intros H. rewrite Z.land_spec, Z.lnot_spec by lia.
  change CS_MASK with 7.
  rewrite (Z.bits_above_log2 7 b) by (cbn; lia). apply andb_true_r.
Qed.

Lemma testbit_or_pattern (r bits b : Z) :
  0 <= bits <= 7 -> 3 <= b ->
  Z.testbit (Z.lor r bits) b = Z.testbit r b.
Proof.
  intros Hbits H. rewrite Z.lor_spec.
  destruct (Z.eq_dec bits 0) as [-> | Hnz].
  - rewrite Z.bits_0. apply orb_false_r.
  - rewrite (Z.bits_above_log2 bits b); [ apply orb_false_r | lia | ].
    assert (Z.log2 bits < 3) by (apply Z.log2_lt_pow2; lia). lia.
Qed.

Lemma clock_field_clear (r : Z) : Z.land (Z.land r (Z.lnot CS_MASK)) CS_MASK = 0.
Proof.
  rewrite <- Z.land_assoc.
  change (Z.land (Z.lnot CS_MASK) CS_MASK) with 0. apply Z.land_0_r.
Qed.

Lemma land_pattern (bits : Z) : 0 <= bits <= 7 -> Z.land bits CS_MASK = bits.
Proof.
  intros H. change CS_MASK with (Z.ones 3). rewrite Z.land_ones by lia.
  apply Z.mod_small. change (2 ^ 3) with 8. lia.
Qed.

(** ** Stopping and resuming *)

(** X1: [stop()] leaves the timer stopped, keeps every bit of TCCR1B above the
    clock-select field, touches nothing else, and stopping twice is stopping
    once. *)
Theorem stop_clears_only_clock_select (s : state) :
  is_stopped (stop s) = true /\
  (forall b, 3 <= b ->
     Z.testbit (TCCR1B (stop s)) b = Z.testbit (TCCR1B s) b) /\
  stop (stop s) = stop s /\
  stop s = set_TCCR1B (TCCR1B (stop s)) s.
Proof.
  unfold is_stopped, stop. cbn [TCCR1B set_TCCR1B].
  split; [ rewrite clock_field_clear; reflexivity | ].
  split; [ intros b Hb; apply testbit_clear_clock_select, Hb | ].
  split; [ | reflexivity ].
  unfold set_TCCR1B. cbn.
  rewrite <- Z.land_assoc, Z.land_diag. reflexivity.
Qed.

(** X2: [resume()] after [stop()] puts the pattern of [clockSelectBits] back in
    the clock-select field, so the timer runs again at the programmed
    divider; the bits above the field, the pending counter samples and the
    access record are as before the [stop()]: the count is not reset. *)
Theorem resume_after_stop (s : state) :
  In (clockSelectBits s) [1; 2; 3; 4; 5] ->
  let s' := resume (stop s) in
  clock_field s' = clockSelectBits s /\
  is_running s' = true /\
  (forall b, 3 <= b -> Z.testbit (TCCR1B s') b = Z.testbit (TCCR1B s) b) /\
  tcnt1_in s' = tcnt1_in s /\ accesses s' = accesses s /\
  ICR1 s' = ICR1 s /\ TIMSK1 s' = TIMSK1 s.
Proof.
  intros Hin. cbv zeta.
  assert (Hb : 0 <= clockSelectBits s <= 7) by (cbn [In] in Hin; lia).
  assert (Hf : clock_field (resume (stop s)) = clockSelectBits s).
  { unfold clock_field, resume, stop.
    cbn [TCCR1B set_TCCR1B clockSelectBits].
    apply clock_select_field, Hb. }
  split; [ exact Hf | ].
  split.
  - unfold is_running, is_stopped. fold (clock_field (resume (stop s))).
    rewrite Hf. destruct (Z.eqb_spec (clockSelectBits s) 0);
      [ cbn [In] in Hin; lia | reflexivity ].
  - split; [ | repeat split ].
    intros b H3. unfold resume, stop.
    cbn [TCCR1B set_TCCR1B clockSelectBits].
    rewrite testbit_or_pattern by assumption.
    apply testbit_clear_clock_select, H3.
Qed.

Lemma resume_after_stop_witness :
  let s := initialize 16000000 65536 1000 reset_state in
  In (clockSelectBits s) [1; 2; 3; 4; 5] /\
  clock_field (resume (stop s)) = clockSelectBits s /\
  is_running (resume (stop s)) = true.
Proof.
  cbv zeta.
  assert (Hin : In (clockSelectBits (initialize 16000000 65536 1000
                                       reset_state)) [1; 2; 3; 4; 5])
    by (cbn; tauto).
  destruct (resume_after_stop _ Hin) as (H1 & H2 & _).
  split; [ exact Hin | ]. split; [ exact H1 | exact H2 ].
Defined.

(** ** Interrupt binding *)

Section InterruptFacts.

Variable F_CPU : Z.
Variable RESOLUTION : Z.

(** X4: [detachInterrupt()] clears the overflow enable bit and no other bit of
    TIMSK1; after [attachInterrupt] it leaves TIMSK1 at 0 while the callback
    stays stored and the clock is not touched. *)
Theorem detachInterrupt_clears_only_TOIE1
  (isr : isr_t) (microseconds : Z) (s : state) :
  Z.testbit (TIMSK1 (detachInterrupt s)) TOIE1 = false /\
  (forall b, b <> TOIE1 ->
     Z.testbit (TIMSK1 (detachInterrupt s)) b = Z.testbit (TIMSK1 s) b) /\
  detachInterrupt s = set_TIMSK1 (TIMSK1 (detachInterrupt s)) s /\
  let s1 := attachInterrupt F_CPU RESOLUTION isr microseconds s in
  TIMSK1 (detachInterrupt s1) = 0 /\
  isrCallback (detachInterrupt s1) = Some isr /\
  TCCR1B (detachInterrupt s1) = TCCR1B s1.
Proof.
  unfold detachInterrupt. cbn [TIMSK1 set_TIMSK1].
  split.
  - rewrite testbit_clear_BV by (unfold TOIE1; lia).
    rewrite Z.eqb_refl. reflexivity.
  - split.
    + intros b Hb. rewrite testbit_clear_BV by (unfold TOIE1; lia).
      apply Z.eqb_neq in Hb. rewrite Hb. reflexivity.
    + split; [ reflexivity | ].
      cbv zeta. unfold attachInterrupt, resume.
      cbn [TIMSK1 set_TCCR1B set_TIMSK1 isrCallback set_isrCallback TCCR1B].
      repeat split.
Qed.

End InterruptFacts.

(** ** The shape of what [start()] and [read()] leave *)

Lemma start_armed (s : state) :
  start s =
  match wait_change (S (length (tcnt1_in (armed s)))) 0 (armed s) with
  | None => None
  | Some (_, s') => Some s'
  end.
Proof. reflexivity. Qed.


Lemma read_some_shape (F_CPU : Z) (s : state) (r : Z) (s' : state) :
  read F_CPU s = Some (r, s') ->
  exists n rest,
    s' = polled n rest s \/ s' = top_loaded (polled n rest s).
Proof.
  unfold read. intros H.
  destruct (tcnt1_in s) as [ | v rest] eqn:Hin.
  - unfold read_TCNT1 in H. cbn in H. rewrite Hin in H. discriminate.
  - destruct (poll_once_split s v rest Hin) as (s1 & H1 & H2).
    rewrite H1, H2 in H.
    destruct (wait_change _ _ _) as [[t s2] | ] eqn:Hw; [ | discriminate ].
    apply wait_change_some in Hw. destruct Hw as (n & rest' & ->).
    rewrite polled_polled in H.
    exists (1 + n)%nat, rest'.
    destruct (to_uint v <? t); inversion H; subst;
      [ left | right ]; reflexivity.
Qed.

(** ** Mode 8 and the clock-select field along a run *)






Section Mode8Facts.

Variable F_CPU : Z.
Variable RESOLUTION : Z.









End Mode8Facts.


(** ** Starting the counter *)

Lemma armed_fields (s : state) :
  accesses (armed s) = accesses s ++ [Wr16 rTCNT1 0 true] /\
  SREG (armed s) = SREG s /\
  TIMSK1 (armed s) = Z.land (TIMSK1 s) (Z.lnot (_BV TOIE1)) /\
  GTCCR (armed s) = Z.lor (GTCCR s) (_BV PSRSYNC) /\
  TCCR1B (armed s) = Z.lor (TCCR1B s) (clockSelectBits s) /\
  tcnt1_in (armed s) = tcnt1_in s.
Proof.
  unfold armed, resume, write_TCNT1, restore_SREG, save_SREG, masked, cli.
  cbn -[Z.clearbit Z.testbit Z.land Z.lor Z.lnot].
  rewrite Z.clearbit_eq by (unfold SREG_I; lia).
  repeat split; reflexivity.
Qed.

(** X5: With the counter reading 0 for [n] polls and then a nonzero value,
    [start()] returns after [n + 1] polls.  It has zeroed the counter in one
    masked store, requested the prescaler reset, ORed the clock-select pattern
    into TCCR1B, restored SREG, and left the overflow interrupt disabled; the
    callback, the top and the duty registers are untouched. *)
Theorem start_polls_until_nonzero
  (s : state) (n : nat) (b : Z) (rest : list Z) :
  tcnt1_in s = repeat 0 n ++ b :: rest ->
  0 < b < 65536 ->
  exists s',
    start s = Some s' /\
    tcnt1_in s' = rest /\
    accesses s' = accesses s ++ Wr16 rTCNT1 0 true
                    :: repeat (Rd16 rTCNT1 true) (S n) /\
    SREG s' = SREG s /\
    Z.testbit (TIMSK1 s') TOIE1 = false /\
    Z.testbit (GTCCR s') PSRSYNC = true /\
    TCCR1B s' = Z.lor (TCCR1B s) (clockSelectBits s) /\
    isrCallback s' = isrCallback s /\ ICR1 s' = ICR1 s /\
    OCR1A s' = OCR1A s /\ OCR1B s' = OCR1B s.
Proof.
  intros Hin Hb.
  destruct (armed_fields s) as (Ha & HS & HT & HG & HB & Hi).
  rewrite start_armed.
  assert (Hkeep : isrCallback (armed s) = isrCallback s /\
                  ICR1 (armed s) = ICR1 s /\ OCR1A (armed s) = OCR1A s /\
                  OCR1B (armed s) = OCR1B s) by (repeat split).
  destruct Hkeep as (Hk1 & Hk2 & Hk3 & Hk4).
  generalize dependent (armed s). intros a Ha HS HT HG HB Hi Hk1 Hk2 Hk3 Hk4.
  rewrite (wait_change_polled (repeat 0 n) _ 0 a b rest).
  - exists (polled (S (length (repeat 0 n))) rest a).
    rewrite repeat_length.
    split; [ reflexivity | ]. split; [ reflexivity | ].
    unfold polled. cbn [accesses SREG TIMSK1 GTCCR TCCR1B isrCallback ICR1
                          OCR1A OCR1B].
    rewrite Ha, HS, HT, HG, HB, Hk1, Hk2, Hk3, Hk4, <- app_assoc.
    rewrite testbit_clear_BV by (unfold TOIE1; lia).
    rewrite testbit_set_BV by (unfold PSRSYNC; lia).
    rewrite !Z.eqb_refl. repeat split.
  - rewrite Hi. exact Hin.
  - apply Forall_forall. intros v Hv. apply repeat_spec in Hv. now subst.
  - rewrite to_uint_id by lia. lia.
  - rewrite Hi, Hin, length_app, repeat_length. cbn. lia.
Qed.

Lemma start_polls_until_nonzero_witness :
  let s := set_tcnt1_in [0; 0; 1] (initialize 16000000 65536 1000 reset_state)
  in
  tcnt1_in s = repeat 0 2 ++ 1 :: [] /\
  0 < 1 < 65536 /\
  exists s', start s = Some s' /\ tcnt1_in s' = [].
Proof.
  cbv zeta.
  assert (Hin : tcnt1_in (set_tcnt1_in [0; 0; 1]
                            (initialize 16000000 65536 1000 reset_state))
                = repeat 0 2 ++ 1 :: []) by reflexivity.
  assert (Hb : 0 < 1 < 65536) by lia.
  destruct (start_polls_until_nonzero _ 2 1 [] Hin Hb) as (s' & H1 & H2 & _).
  split; [ exact Hin | ]. split; [ exact Hb | ].
  exists s'. split; [ exact H1 | exact H2 ].
Defined.

(** ** A counter that does not move *)

Lemma poll_none (s : state) :
  tcnt1_in s = [] -> read_TCNT1 (cli (save_SREG s)) = None.
Proof.
  intros H. unfold read_TCNT1.
  change (tcnt1_in (cli (save_SREG s))) with (tcnt1_in s).
  rewrite H. reflexivity.
Qed.

Lemma wait_change_none (l : list Z) :
  forall (fuel : nat) (tmp : Z) (s : state),
    tcnt1_in s = l ->
    Forall (fun v => to_uint v = tmp) l ->
    wait_change fuel tmp s = None.
Proof.
  induction l as [ | v l IH]; intros fuel tmp s Hin Hall;
    (destruct fuel as [ | fuel]; [ reflexivity | ]);
    rewrite wait_change_unfold.
  - rewrite (poll_none s Hin). reflexivity.
  - rewrite (poll_once s v l Hin).
    inversion Hall as [ | ? ? Hv Hl]; subst.
    rewrite Z.eqb_refl. apply (IH fuel (to_uint v)); [ reflexivity | exact Hl ].
Qed.

Section FrozenFacts.

Variable F_CPU : Z.

(** X6: While every sample of the counter is the same value, the busy-wait of
    [read()] does not end, however many samples there are; when that value is
    0 the one of [start()] and [restart()] does not end either.  So [read()]
    on a stopped timer does not return. *)
Theorem frozen_counter_blocks (c : Z) (s : state) :
  Forall (fun v => to_uint v = c) (tcnt1_in s) ->
  read F_CPU s = None /\
  (c = 0 -> start s = None /\ restart s = None).
Proof.
  intros Hall. split.
  - unfold read.
    destruct (tcnt1_in s) as [ | v rest] eqn:Hin.
    + rewrite (poll_none s Hin). reflexivity.
    + destruct (poll_once_split s v rest Hin) as (s1 & -> & ->).
      inversion Hall as [ | ? ? Hv Hrest]; subst.
      rewrite (wait_change_none rest _ (to_uint v)
                 (polled 1 rest s) eq_refl Hrest).
      reflexivity.
  - intros ->.
    assert (Hs : start s = None).
    { destruct (armed_fields s) as (_ & _ & _ & _ & _ & Hi).
      rewrite start_armed.
      generalize dependent (armed s). intros a Hi.
      rewrite (wait_change_none (tcnt1_in s) _ 0 a Hi Hall).
      reflexivity. }
    split; [ exact Hs | ]. rewrite restart_unfold. exact Hs.
Qed.

End FrozenFacts.

Lemma frozen_counter_blocks_witness :
  let s := set_tcnt1_in [7; 7; 7]
             (stop (initialize 16000000 65536 1000 reset_state)) in
  Forall (fun v => to_uint v = 7) (tcnt1_in s) /\
  read 16000000 s = None.
Proof.
  cbv zeta.
  assert (Hall : Forall (fun v => to_uint v = 7)
                   (tcnt1_in (set_tcnt1_in [7; 7; 7]
                      (stop (initialize 16000000 65536 1000 reset_state)))))
    by (repeat constructor).
  split; [ exact Hall | ].
  exact (proj1 (frozen_counter_blocks 16000000 7 _ Hall)).
Defined.

(** ** Reading while counting up, and from interrupt context *)

Section ReadMore.

Variable F_CPU : Z.
Variable RESOLUTION : Z.

(** X7: When the second sample is larger than the first (counting up), [read()]
    converts the first sample alone, not the difference of the two; it never
    touches ICR1 on this path, all its counter loads are masked and SREG is
    as before. *)
Theorem read_up_count (s : state) (a b : Z) (n : nat) (rest : list Z) :
  0 <= F_CPU <= LONG_MAX ->
  tcnt1_in s = a :: repeat a n ++ b :: rest ->
  0 <= a < b -> b < 65536 ->
  In (clockSelectBits s) [1; 2; 3; 4; 5] ->
  read F_CPU s
  = Some (microseconds_of_ticks F_CPU a (clockSelectBits s),
          polled (2 + n) rest s) /\
  guarded s (polled (2 + n) rest s).
Proof.
  intros HF Hin Hab Hb Hbits.
  assert (Hua : to_uint a = a) by (apply to_uint_id; lia).
  assert (Hub : to_uint b = b) by (apply to_uint_id; lia).
  split; [ | apply guarded_polled ].
  rewrite (read_result F_CPU s a b (repeat a n) rest Hin).
  - rewrite Hua, Hub, repeat_length.
    destruct (Z.ltb_spec a b) as [_ | Hge]; [ | lia ].
    rewrite (scale_switch_log2 _ Hbits).
    unfold microseconds_of_ticks.
    rewrite (to_ulong_id (a * 1000)) by lia.
    rewrite Z.quot_div_nonneg by lia.
    rewrite (to_ulong_id (F_CPU / 1000))
      by (unfold LONG_MAX in HF; Z.to_euclidean_division_equations; lia).
    reflexivity.
  - apply Forall_forall. intros v Hv. apply repeat_spec in Hv. now subst.
  - lia.
Qed.

Lemma op_eq_read (o : op) : o = OpRead \/ o <> OpRead.
Proof. destruct o; (left; reflexivity) || (right; discriminate). Qed.

Lemma guarded_top_loaded (s : state) :
  masked s = true -> guarded s (top_loaded s).
Proof.
  intros Hm. split; [ reflexivity | ].
  exists [Rd16 rICR1 true; Rd16 rICR1 true].
  split; [ | reflexivity ].
  unfold top_loaded, log_access. cbn [accesses].
  rewrite Hm, <- app_assoc. reflexivity.
Qed.

(** X8: No operation changes SREG, so none enables interrupts.  Every operation
    other than [read()] makes all its 16-bit register accesses with
    interrupts masked, and so does [read()] when it is called with interrupts
    already masked, as from an interrupt routine. *)
Theorem interrupt_flag_discipline (o : op) (s s' : state) :
  run_op F_CPU RESOLUTION o s = Some s' ->
  SREG s' = SREG s /\
  (o <> OpRead \/ masked s = true -> guarded s s').
Proof.
  intros Hrun.
  destruct (op_eq_read o) as [-> | Hne].
  - cbn [run_op] in Hrun.
    destruct (read F_CPU s) as [[r s1] | ] eqn:Hr; [ | discriminate ].
    cbn [option_map snd] in Hrun. inversion Hrun; subst s1.
    apply read_some_shape in Hr. destruct Hr as (n & rest & [-> | ->]).
    + split; [ reflexivity | ]. intros _. apply guarded_polled.
    + split; [ reflexivity | ].
      intros [Hc | Hm]; [ congruence | ].
      apply guarded_trans with (polled n rest s);
        [ apply guarded_polled | apply guarded_top_loaded; exact Hm ].
  - pose proof (run_op_guarded F_CPU RESOLUTION o s s' Hne Hrun) as Hg.
    split; [ exact (proj1 Hg) | intros _; exact Hg ].
Qed.

End ReadMore.

Lemma read_up_count_witness :
  tcnt1_in up_count_example = 499 :: repeat 499 0 ++ 500 :: [] /\
  0 <= 499 < 500 /\
  In (clockSelectBits up_count_example) [1; 2; 3; 4; 5] /\
  read 16000000 up_count_example
  = Some (microseconds_of_ticks 16000000 499 1,
          polled 2 [] up_count_example).
Proof.
  assert (HF : 0 <= 16000000 <= LONG_MAX) by (unfold LONG_MAX; lia).
  assert (Hin : tcnt1_in up_count_example
                = 499 :: repeat 499 0 ++ 500 :: []) by reflexivity.
  assert (Hab : 0 <= 499 < 500) by lia.
  assert (Hb : 500 < 65536) by lia.
  assert (Hbits : In (clockSelectBits up_count_example) [1; 2; 3; 4; 5])
    by (cbn; tauto).
  split; [ exact Hin | ]. split; [ exact Hab | ]. split; [ exact Hbits | ].
  exact (proj1 (read_up_count 16000000 up_count_example 499 500 0 []
                  HF Hin Hab Hb Hbits)).
Defined.

Lemma interrupt_flag_discipline_witness :
  run_op 16000000 65536 (OpSetPwmDuty 9 512) down_count_example
  = Some (setPwmDuty 9 512 down_count_example) /\
  SREG (setPwmDuty 9 512 down_count_example) = SREG down_count_example.
Proof.
  assert (Hrun : run_op 16000000 65536 (OpSetPwmDuty 9 512) down_count_example
                 = Some (setPwmDuty 9 512 down_count_example))
    by reflexivity.
  split; [ exact Hrun | ].
  exact (proj1 (interrupt_flag_discipline 16000000 65536 _ _ _ Hrun)).
Defined.

(** ** Enabling and disabling a channel *)

(** X9: On a valid channel [disablePwm] clears that channel's output-compare
    enable bit of TCCR1A and nothing else: the other channel's bit, the pin
    direction, the duty registers and the clock are as before, and no 16-bit
    register is accessed. *)
Theorem disablePwm_clears_only_channel (pin : Z) (c : channel) (s : state) :
  channel_of_pin pin = Some c ->
  let s' := disablePwm pin s in
  Z.testbit (TCCR1A s') (com_bit c) = false /\
  (forall b, b <> com_bit c ->
     Z.testbit (TCCR1A s') b = Z.testbit (TCCR1A s) b) /\
  s' = set_TCCR1A (TCCR1A s') s.
Proof.
  intros Hc. cbv zeta.
  pose proof (channel_of_pin_cases pin) as Hpin. rewrite Hc in Hpin.
  unfold disablePwm.
  destruct c; [ rewrite Hpin | destruct Hpin as [-> ->] ];
    cbn [TCCR1A set_TCCR1A com_bit];
    (split; [ rewrite testbit_clear_BV by (cbv; discriminate);
              rewrite Z.eqb_refl; reflexivity | ]);
    (split; [ | reflexivity ]);
    intros b Hb; rewrite testbit_clear_BV by (cbv; discriminate);
    apply Z.eqb_neq in Hb; rewrite Hb; reflexivity.
Qed.

Lemma disablePwm_clears_only_channel_witness :
  let s := pwm 16000000 65536 10 512 1000 reset_state in
  channel_of_pin 10 = Some ChannelB /\
  Z.testbit (TCCR1A s) COM1B1 = true /\
  Z.testbit (TCCR1A (disablePwm 10 s)) COM1B1 = false.
Proof.
  cbv zeta.
  assert (Hc : channel_of_pin 10 = Some ChannelB) by reflexivity.
  split; [ exact Hc | ]. split; [ reflexivity | ].
  exact (proj1 (disablePwm_clears_only_channel 10 ChannelB _ Hc)).
Defined.

Section PwmFacts.

Variable F_CPU : Z.
Variable RESOLUTION : Z.

(** What the optional [setPeriod] at the head of [pwm] and [attachInterrupt]
    keeps. *)
Lemma maybe_setPeriod_frame (microseconds : Z) (s : state) :
  let s1 := if 0 <? microseconds
            then setPeriod F_CPU RESOLUTION microseconds s else s in
  (0 <= pwmPeriod s < 65536 -> 0 <= pwmPeriod s1 < 65536) /\
  DDRB s1 = DDRB s /\ TCCR1A s1 = TCCR1A s /\
  OCR1A s1 = OCR1A s /\ OCR1B s1 = OCR1B s /\
  tcnt1_in s1 = tcnt1_in s /\ TIMSK1 s1 = TIMSK1 s /\
  isrCallback s1 = isrCallback s.
Proof.
  cbv zeta. destruct (0 <? microseconds); [ | repeat split; tauto ].
  destruct (setPeriod_fields F_CPU RESOLUTION microseconds s)
    as (_ & Hpw & _ & _ & _ & _ & HA & HT & _ & HD & HO1 & HO2 & Hin & Hcb).
  repeat split; try assumption; rewrite Hpw; apply to_uint_range.
Qed.

(** X10: [pwm] on a valid channel with a duty of 0 to 1023: after the optional
    [setPeriod], it makes the channel's pin an output, connects the output
    compare, stores [(pwmPeriod * duty) >> 10] in the channel's compare
    register in one masked access and ORs the clock-select pattern into
    TCCR1B.  The other channel's compare register and every other bit of DDRB
    and TCCR1A are as before, and the counter is neither stored to nor
    read: a channel that is already running is not disturbed. *)
Theorem pwm_enables_channel
  (pin duty microseconds : Z) (c : channel) (s : state) :
  channel_of_pin pin = Some c ->
  0 <= duty <= 1023 ->
  0 <= pwmPeriod s < 65536 ->
  let s1 := if 0 <? microseconds
            then setPeriod F_CPU RESOLUTION microseconds s else s in
  let s' := pwm F_CPU RESOLUTION pin duty microseconds s in
  let v := Z.shiftr (pwmPeriod s1 * duty) 10 in
  Z.testbit (DDRB s') (port_bit c) = true /\
  Z.testbit (TCCR1A s') (com_bit c) = true /\
  (forall b, b <> port_bit c ->
     Z.testbit (DDRB s') b = Z.testbit (DDRB s) b) /\
  (forall b, b <> com_bit c ->
     Z.testbit (TCCR1A s') b = Z.testbit (TCCR1A s) b) /\
  duty_of c s' = v /\
  duty_of (other c) s' = duty_of (other c) s /\
  TCCR1B s' = Z.lor (TCCR1B s1) (clockSelectBits s1) /\
  accesses s' = accesses s1 ++ [Wr16 (duty_reg c) v true] /\
  tcnt1_in s' = tcnt1_in s /\ TIMSK1 s' = TIMSK1 s.
Proof.
  intros Hc Hd Ht. cbv zeta.
  pose proof (channel_of_pin_cases pin) as Hpin. rewrite Hc in Hpin.
  destruct (maybe_setPeriod_frame microseconds s)
    as (Hr & HD & HA & HO1 & HO2 & Hin & HT & _).
  specialize (Hr Ht).
  unfold pwm.
  set (s1 := if 0 <? microseconds
             then setPeriod F_CPU RESOLUTION microseconds s else s) in *.
  clearbody s1.
  pose proof (duty_value_exact _ _ Hr Hd) as Hv.
  unfold setPwmDuty.
  destruct c; [ rewrite !Hpin | destruct Hpin as [H1 H2]; rewrite !H1, !H2 ];
    unfold resume, write_OCR1A, write_OCR1B, restore_SREG, save_SREG, masked,
      cli;
    cbn -[Z.clearbit Z.testbit Z.land Z.lor Z.lnot Z.shiftr to_uint to_ulong
          Z.mul _BV];
    rewrite Z.clearbit_eq by (unfold SREG_I; lia);
    rewrite Hv, HD, HA, ?HO1, ?HO2, Hin, HT;
    rewrite !testbit_set_BV by (cbv; discriminate);
    rewrite !Z.eqb_refl;
    repeat split;
    intros b Hb; rewrite testbit_set_BV by (cbv; discriminate);
    apply Z.eqb_neq in Hb; cbn [port_bit com_bit] in Hb; rewrite Hb;
    reflexivity.
Qed.

End PwmFacts.

Lemma pwm_enables_channel_witness :
  let s := pwm 16000000 65536 9 256 1000 reset_state in
  channel_of_pin 10 = Some ChannelB /\
  0 <= 512 <= 1023 /\
  0 <= pwmPeriod s < 65536 /\
  OCR1B (pwm 16000000 65536 10 512 0 s) = 4000 /\
  OCR1A (pwm 16000000 65536 10 512 0 s) = OCR1A s.
Proof.
  cbv zeta.
  assert (Hc : channel_of_pin 10 = Some ChannelB) by reflexivity.
  assert (Hd : 0 <= 512 <= 1023) by lia.
  assert (Ht : 0 <= pwmPeriod (pwm 16000000 65536 9 256 1000 reset_state)
               < 65536) by (vm_compute; split; [ discriminate | reflexivity ]).
  destruct (pwm_enables_channel 16000000 65536 10 512 0 ChannelB _ Hc Hd Ht)
    as (_ & _ & _ & _ & H5 & H6 & _).
  split; [ exact Hc | ]. split; [ exact Hd | ]. split; [ exact Ht | ].
  split; [ exact H5 | exact H6 ].
Defined.

(** ** More on period programming *)

Lemma clear_after_pattern (r bits : Z) :
  In bits [1; 2; 3; 4; 5] ->
  Z.land (Z.lor (Z.land r (Z.lnot CS_MASK)) bits) (Z.lnot CS_MASK)
  = Z.land r (Z.lnot CS_MASK).
Proof.
  intros Hin. rewrite Z.land_lor_distr_l, <- Z.land_assoc, Z.land_diag.
  assert (H0 : Z.land bits (Z.lnot CS_MASK) = 0).
  { cbn [In] in Hin.
    repeat (destruct Hin as [<- | Hin]; [ reflexivity | ]). contradiction. }
  rewrite H0. apply Z.lor_0_r.
Qed.

Lemma running_after_or (r bits : Z) :
  In bits [1; 2; 3; 4; 5] -> (Z.land (Z.lor r bits) CS_MASK =? 0) = false.
Proof.
  intros Hin. apply Z.eqb_neq. intros H0.
  rewrite Z.land_lor_distr_l, (land_pattern bits) in H0
    by (cbn [In] in Hin; lia).
  apply Z.lor_eq_0_iff in H0. cbn [In] in Hin. lia.
Qed.

Section PeriodMore.

Variable F_CPU : Z.
Variable RESOLUTION : Z.

Hypothesis F_CPU_range : 0 <= F_CPU <= LONG_MAX.
Hypothesis RESOLUTION_range : 0 < RESOLUTION <= 65536.

(** X11: A second [setPeriod] replaces the first completely: divider, top and
    TCCR1B are those a single call with the second period gives, whatever the
    first period was. *)
Theorem setPeriod_last_call_wins (p1 p2 : Z) (s : state) :
  let a := setPeriod F_CPU RESOLUTION p2 (setPeriod F_CPU RESOLUTION p1 s) in
  let b := setPeriod F_CPU RESOLUTION p2 s in
  clockSelectBits a = clockSelectBits b /\
  pwmPeriod a = pwmPeriod b /\ ICR1 a = ICR1 b /\
  TCCR1B a = TCCR1B b /\ TCCR1A a = TCCR1A b /\ SREG a = SREG b.
Proof.
  cbv zeta.
  destruct (setPeriod_fields F_CPU RESOLUTION p1 s)
    as (Hb1 & _ & _ & Ht1 & HS1 & _ & HA1 & _).
  pose proof (select_prescale_bits RESOLUTION
                (to_long (Z.quot F_CPU 2000000 * p1))) as Hin1.
  generalize dependent (setPeriod F_CPU RESOLUTION p1 s).
  intros s1 Hb1 Ht1 HS1 HA1.
  destruct (setPeriod_fields F_CPU RESOLUTION p2 s1)
    as (Hb2 & Hp2 & Hi2 & Ht2 & HS2 & _ & HA2 & _).
  destruct (setPeriod_fields F_CPU RESOLUTION p2 s)
    as (Hb & Hp & Hi & Ht & HS & _ & HA & _).
  rewrite Hb2, Hp2, Hi2, Ht2, HS2, HA2, Hb, Hp, Hi, Ht, HS, HA.
  rewrite Ht1, HS1, HA1, clear_after_pattern by exact Hin1.
  repeat split.
Qed.

(** X12: Reading the programmed divider and top back gives the requested cycle
    count to within one prescaled tick: [top * divider <= cycles <
    (top + 1) * divider] for every representable period. *)
Theorem setPeriod_quantisation (microseconds : Z) (s : state) :
  representable F_CPU RESOLUTION microseconds ->
  let s' := setPeriod F_CPU RESOLUTION microseconds s in
  let d := divider_of_bits (clockSelectBits s') in
  pwmPeriod s' * d <= cycles_of F_CPU microseconds < (pwmPeriod s' + 1) * d /\
  ICR1 s' = pwmPeriod s'.
Proof.
  intros Hrep. cbv zeta.
  destruct (in_range_fits F_CPU RESOLUTION F_CPU_range RESOLUTION_range
              _ Hrep) as [Hfit Hnn].
  destruct Hrep as [Hp Hr].
  destruct (setPeriod_fields F_CPU RESOLUTION microseconds s)
    as (Hb & Hpw & Hicr & _).
  rewrite Hfit in Hb, Hpw, Hicr.
  destruct (select_prescale_smallest RESOLUTION _ Hnn Hr)
    as (Hin & Htop & Hlt & _).
  rewrite Hb, Hpw, Hicr. rewrite to_uint_id by lia.
  split; [ | reflexivity ].
  rewrite Htop.
  set (d := divider_of_bits (snd (select_prescale RESOLUTION
                                    (cycles_of F_CPU microseconds)))) in *.
  assert (Hd : 0 < d).
  { unfold dividers in Hin. cbn [In] in Hin. lia. }
  clearbody d.
  pose proof (Z.mul_div_le (cycles_of F_CPU microseconds) d Hd).
  pose proof (Z.mul_succ_div_gt (cycles_of F_CPU microseconds) d Hd).
  lia.
Qed.

(** X13: A negative period is not rejected: its negative cycle count passes the
    first test of the chain, so no prescaling is selected and the top is the
    low 16 bits of the count. *)
Theorem setPeriod_negative (microseconds : Z) (s : state) :
  LONG_MIN <= cycles_of F_CPU microseconds < 0 ->
  let s' := setPeriod F_CPU RESOLUTION microseconds s in
  clockSelectBits s' = 1 /\
  pwmPeriod s' = cycles_of F_CPU microseconds mod 65536 /\
  ICR1 s' = pwmPeriod s'.
Proof.
  intros Hneg. cbv zeta.
  destruct (setPeriod_fields F_CPU RESOLUTION microseconds s)
    as (Hb & Hpw & Hicr & _).
  rewrite (cycles_per_us_quot F_CPU F_CPU_range) in Hb, Hpw, Hicr.
  fold (cycles_of F_CPU microseconds) in Hb, Hpw, Hicr.
  rewrite to_long_id in Hb, Hpw, Hicr by (unfold LONG_MAX; lia).
  unfold select_prescale in Hb, Hpw, Hicr.
  destruct (Z.ltb_spec (cycles_of F_CPU microseconds) RESOLUTION);
    [ | lia ].
  cbn [fst snd] in Hb, Hpw, Hicr.
  rewrite Hb, Hpw, Hicr. repeat split.
Qed.

(** X14: [initialize] programs TCCR1A, TCCR1B, the top and the divider from its
    argument alone, whatever they held, and leaves the interrupt mask, the
    callback, the duty registers and the pin directions as they were: calling
    it again does not detach an interrupt or disable a PWM pin direction. *)
Theorem initialize_resets_timing_only (microseconds : Z) (s1 s2 : state) :
  let a := initialize F_CPU RESOLUTION microseconds s1 in
  let b := initialize F_CPU RESOLUTION microseconds s2 in
  (TCCR1A a = TCCR1A b /\ TCCR1B a = TCCR1B b /\ ICR1 a = ICR1 b /\
   pwmPeriod a = pwmPeriod b /\ clockSelectBits a = clockSelectBits b) /\
  (TIMSK1 a = TIMSK1 s1 /\ isrCallback a = isrCallback s1 /\
   OCR1A a = OCR1A s1 /\ OCR1B a = OCR1B s1 /\ DDRB a = DDRB s1 /\
   SREG a = SREG s1 /\ tcnt1_in a = tcnt1_in s1).
Proof.
  cbv zeta. unfold initialize.
  destruct (setPeriod_fields F_CPU RESOLUTION microseconds
              (set_TCCR1B (_BV WGM13) (set_TCCR1A 0 s1)))
    as (Hb1 & Hp1 & Hi1 & Ht1 & HS1 & _ & HA1 & HM1 & _ & HD1 & HO1 & HO1'
        & Hin1 & Hcb1).
  destruct (setPeriod_fields F_CPU RESOLUTION microseconds
              (set_TCCR1B (_BV WGM13) (set_TCCR1A 0 s2)))
    as (Hb2 & Hp2 & Hi2 & Ht2 & _ & _ & HA2 & _).
  rewrite Hb1, Hp1, Hi1, Ht1, HS1, HA1, HM1, HD1, HO1, HO1', Hin1, Hcb1.
  rewrite Hb2, Hp2, Hi2, Ht2, HA2.
  repeat split.
Qed.

(** X15: [attachInterrupt] stores the callback, leaves the timer running whenever
    it was given a positive period or a divider had been programmed before,
    and does not access the counter: a stopped timer is restarted where it
    stood, not from zero. *)
Theorem attachInterrupt_resumes_clock
  (isr : isr_t) (microseconds : Z) (s : state) :
  0 < microseconds \/ In (clockSelectBits s) [1; 2; 3; 4; 5] ->
  let s1 := if 0 <? microseconds
            then setPeriod F_CPU RESOLUTION microseconds s else s in
  let s' := attachInterrupt F_CPU RESOLUTION isr microseconds s in
  is_running s' = true /\
  isrCallback s' = Some isr /\
  accesses s' = accesses s1 /\ tcnt1_in s' = tcnt1_in s.
Proof.
  intros Hor. cbv zeta.
  assert (Hin : In (clockSelectBits
                      (if 0 <? microseconds
                       then setPeriod F_CPU RESOLUTION microseconds s
                       else s)) [1; 2; 3; 4; 5]).
  { destruct (Z.ltb_spec 0 microseconds) as [Hpos | Hle].
    - rewrite (proj1 (setPeriod_fields F_CPU RESOLUTION microseconds s)).
      apply select_prescale_bits.
    - destruct Hor as [Hpos | H]; [ lia | exact H ]. }
  destruct (maybe_setPeriod_frame F_CPU RESOLUTION microseconds s)
    as (_ & _ & _ & _ & _ & Hti & _).
  unfold attachInterrupt.
  set (s1 := if 0 <? microseconds
             then setPeriod F_CPU RESOLUTION microseconds s else s) in *.
  clearbody s1.
  unfold is_running, is_stopped, resume.
  cbn [TCCR1B set_TCCR1B set_TIMSK1 set_isrCallback clockSelectBits
       isrCallback accesses tcnt1_in].
  rewrite running_after_or by exact Hin.
  repeat split. exact Hti.
Qed.

End PeriodMore.

Lemma setPeriod_quantisation_witness :
  let s' := setPeriod 16000000 65536 1000001 reset_state in
  representable 16000000 65536 1000001 /\
  pwmPeriod s' * 256 <= cycles_of 16000000 1000001 < (pwmPeriod s' + 1) * 256.
Proof.
  cbv zeta.
  assert (Hrep : representable 16000000 65536 1000001)
    by (split; [ lia | reflexivity ]).
  assert (HF : 0 <= 16000000 <= LONG_MAX) by (unfold LONG_MAX; lia).
  assert (HR : 0 < 65536 <= 65536) by lia.
  split; [ exact Hrep | ].
  exact (proj1 (setPeriod_quantisation 16000000 65536 HF HR 1000001
                  reset_state Hrep)).
Defined.

Lemma setPeriod_negative_witness :
  LONG_MIN <= cycles_of 16000000 (-1) < 0 /\
  clockSelectBits (setPeriod 16000000 65536 (-1) reset_state) = 1 /\
  pwmPeriod (setPeriod 16000000 65536 (-1) reset_state) = 65528.
Proof.
  assert (Hneg : LONG_MIN <= cycles_of 16000000 (-1) < 0)
    by (unfold LONG_MIN; cbn; lia).
  assert (HF : 0 <= 16000000 <= LONG_MAX) by (unfold LONG_MAX; lia).
  assert (HR : 0 < 65536 <= 65536) by lia.
  destruct (setPeriod_negative 16000000 65536 HF HR (-1) reset_state Hneg)
    as (H1 & H2 & _).
  split; [ exact Hneg | ]. split; [ exact H1 | exact H2 ].
Defined.

Lemma attachInterrupt_resumes_clock_witness :
  let s := stop (initialize 16000000 65536 1000 reset_state) in
  In (clockSelectBits s) [1; 2; 3; 4; 5] /\
  is_stopped s = true /\
  is_running (attachInterrupt 16000000 65536 42 0 s) = true.
Proof.
  cbv zeta.
  assert (Hin : In (clockSelectBits
                      (stop (initialize 16000000 65536 1000 reset_state)))
                  [1; 2; 3; 4; 5]) by (cbn; tauto).
  split; [ exact Hin | ]. split; [ reflexivity | ].
  exact (proj1 (attachInterrupt_resumes_clock 16000000 65536 42 0 _
                  (or_intror Hin))).
Defined.

(** ** The range of the duty value *)

Lemma setPwmDuty_value (pin duty : Z) (c : channel) (s : state) :
  channel_of_pin pin = Some c ->
  duty_of c (setPwmDuty pin duty s)
  = to_uint (Z.shiftr (to_ulong (to_ulong (pwmPeriod s) * to_ulong duty)) 10).
Proof.
  intros Hc.
  pose proof (channel_of_pin_cases pin) as Hpin. rewrite Hc in Hpin.
  unfold setPwmDuty.
  destruct c; [ rewrite Hpin | destruct Hpin as [-> ->] ]; reflexivity.
Qed.

(** X16: On a valid channel, with a duty of 0 to 1023 and a 16-bit top, the
    compare value never exceeds the top, is 0 for duty 0, grows with the duty,
    and stays strictly below a nonzero top: the largest 10-bit duty does not
    reach a fully-on output. *)
Theorem setPwmDuty_within_top (pin duty : Z) (c : channel) (s : state) :
  channel_of_pin pin = Some c ->
  0 <= duty <= 1023 ->
  0 <= pwmPeriod s < 65536 ->
  let v := duty_of c (setPwmDuty pin duty s) in
  0 <= v <= pwmPeriod s /\
  (0 < pwmPeriod s -> v < pwmPeriod s) /\
  (duty = 0 -> v = 0) /\
  (forall duty', duty <= duty' <= 1023 ->
     v <= duty_of c (setPwmDuty pin duty' s)).
Proof.
  intros Hc Hd Ht. cbv zeta.
  rewrite (setPwmDuty_value pin duty c s Hc), duty_value_exact by assumption.
  rewrite Z.shiftr_div_pow2 by lia. change (2 ^ 10) with 1024.
  assert (H0 : 0 <= pwmPeriod s * duty <= pwmPeriod s * 1023) by nia.
  split; [ Z.to_euclidean_division_equations; lia | ].
  split; [ intros Hpos; Z.to_euclidean_division_equations; lia | ].
  split; [ intros ->; rewrite Z.mul_0_r; reflexivity | ].
  intros duty' Hd'.
  rewrite (setPwmDuty_value pin duty' c s Hc), duty_value_exact
    by (assumption || lia).
  rewrite Z.shiftr_div_pow2 by lia. change (2 ^ 10) with 1024.
  apply Z.div_le_mono; nia.
Qed.

Lemma setPwmDuty_within_top_witness :
  let s := initialize 16000000 65536 1000 reset_state in
  channel_of_pin 9 = Some ChannelA /\
  0 <= 1023 <= 1023 /\
  0 <= pwmPeriod s < 65536 /\
  OCR1A (setPwmDuty 9 1023 s) < pwmPeriod s.
Proof.
  cbv zeta.
  assert (Hc : channel_of_pin 9 = Some ChannelA) by reflexivity.
  assert (Hd : 0 <= 1023 <= 1023) by lia.
  assert (Ht : 0 <= pwmPeriod (initialize 16000000 65536 1000 reset_state)
               < 65536) by (vm_compute; split; [ discriminate | reflexivity ]).
  destruct (setPwmDuty_within_top 9 1023 ChannelA _ Hc Hd Ht)
    as (_ & H2 & _).
  split; [ exact Hc | ]. split; [ exact Hd | ]. split; [ exact Ht | ].
  apply H2. vm_compute. reflexivity.
Defined.

(** ** What [setPeriod] and [read()] do to the rest of the timer *)

Section RunStateFacts.

Variable F_CPU : Z.
Variable RESOLUTION : Z.

(** X17: [setPeriod] always ends with the clock running at the divider it chose,
    also on a timer that was stopped; it keeps the bits of TCCR1B above the
    clock-select field and its only 16-bit access is the masked store of the
    top: the counter itself is not reset. *)
Theorem setPeriod_starts_clock (microseconds : Z) (s : state) :
  let s' := setPeriod F_CPU RESOLUTION microseconds s in
  is_running s' = true /\
  clock_field s' = clockSelectBits s' /\
  (forall b, 3 <= b -> Z.testbit (TCCR1B s') b = Z.testbit (TCCR1B s) b) /\
  accesses s' = accesses s ++ [Wr16 rICR1 (pwmPeriod s') true] /\
  tcnt1_in s' = tcnt1_in s.
Proof.
  cbv zeta.
  destruct (setPeriod_fields F_CPU RESOLUTION microseconds s)
    as (Hb & Hpw & _ & Ht & _ & Ha & _ & _ & _ & _ & _ & _ & Hin & _).
  pose proof (select_prescale_bits RESOLUTION
                (to_long (Z.quot F_CPU 2000000 * microseconds))) as Hbits.
  rewrite <- Hb in Hbits, Ht. rewrite <- Hpw in Ha.
  generalize dependent (setPeriod F_CPU RESOLUTION microseconds s).
  intros s' _ _ Ht Ha Hin Hbits.
  assert (H7 : 0 <= clockSelectBits s' <= 7) by (cbn [In] in Hbits; lia).
  assert (Hf : clock_field s' = clockSelectBits s').
  { unfold clock_field. rewrite Ht. apply clock_select_field, H7. }
  split.
  { unfold is_running, is_stopped. fold (clock_field s'). rewrite Hf.
    destruct (Z.eqb_spec (clockSelectBits s') 0);
      [ cbn [In] in Hbits; lia | reflexivity ]. }
  split; [ exact Hf | ].
  split; [ | split; assumption ].
  intros b H3. rewrite Ht, testbit_or_pattern by assumption.
  apply testbit_clear_clock_select, H3.
Qed.

(** X18: [read()] is a query: when it returns, every register, the programmed
    period and divider and the callback are as before; only counter samples
    were consumed and the scratch [oldSREG] rewritten. *)
Theorem read_changes_no_register (s : state) (r : Z) (s' : state) :
  read F_CPU s = Some (r, s') ->
  TCCR1A s' = TCCR1A s /\ TCCR1B s' = TCCR1B s /\ TIMSK1 s' = TIMSK1 s /\
  GTCCR s' = GTCCR s /\ DDRB s' = DDRB s /\ SREG s' = SREG s /\
  ICR1 s' = ICR1 s /\ OCR1A s' = OCR1A s /\ OCR1B s' = OCR1B s /\
  pwmPeriod s' = pwmPeriod s /\ clockSelectBits s' = clockSelectBits s /\
  isrCallback s' = isrCallback s /\
  forallb (fun a => negb (writes_counter a)) (skipn (length (accesses s))
                                                (accesses s')) = true.
Proof.
  intros Hr. apply read_some_shape in Hr.
  assert (Hrep : forall n l,
             forallb (fun a => negb (writes_counter a))
               (repeat (Rd16 rTCNT1 true) n ++ l)
             = forallb (fun a => negb (writes_counter a)) l).
  { intros n l. induction n as [ | n IH]; [ reflexivity | exact IH ]. }
  assert (Hskip : forall (l1 l2 : list access),
             skipn (length l1) (l1 ++ l2) = l2).
  { intros l1 l2. induction l1 as [ | x l1 IH]; [ reflexivity | exact IH ]. }
  destruct Hr as (n & rest & [-> | ->]); repeat split.
  - unfold polled. cbn [accesses]. rewrite Hskip.
    rewrite <- (app_nil_r (repeat _ n)), Hrep. reflexivity.
  - unfold top_loaded, log_access, polled. cbn [accesses].
    rewrite <- !app_assoc, Hskip, Hrep. reflexivity.
Qed.

End RunStateFacts.

Lemma read_changes_no_register_witness :
  let s' :=
    mkState 0 17 0 0 0 128 1000 0 0 [] 1000 1 128 None
      [Rd16 rTCNT1 true; Rd16 rTCNT1 true;
       Rd16 rICR1 false; Rd16 rICR1 false] in
  read 16000000 down_count_example = Some (93, s') /\
  TCCR1B s' = TCCR1B down_count_example /\
  ICR1 s' = ICR1 down_count_example.
Proof.
  cbv zeta.
  assert (Hr : read 16000000 down_count_example
               = Some (93,
                       mkState 0 17 0 0 0 128 1000 0 0 [] 1000 1 128 None
                         [Rd16 rTCNT1 true; Rd16 rTCNT1 true;
                          Rd16 rICR1 false; Rd16 rICR1 false]))
    by (vm_compute; reflexivity).
  destruct (read_changes_no_register 16000000 _ _ _ Hr)
    as (_ & H2 & _ & _ & _ & _ & H7 & _).
  split; [ exact Hr | ]. split; [ exact H2 | exact H7 ].
Defined.
